(** * PlotBott: workflow conversion, prompt injection, prompt parsing and
      the submission/polling client

    A shallow embedding of the Python scripts under [scripts/]:
    - [convert-workflow.py]: [convert_workflow_to_api] and the loop that
      updates the positive prompt of the converted workflow;
    - [generate-images-local.py], [generate-images-working.py]:
      [parse_broll_prompts] and [generate_image].

    Python values that come out of [json.load] are modelled by [Py.value];
    the fields the scripts read with a fixed meaning (node ids, link ids,
    names, titles) are typed as the editor format has them.  A Python
    [dict] whose iteration order is observed is an insertion-ordered
    association list ([Dict]); the [inputs] dict of an API node, whose
    order is never observed, is a [gmap]. *)

From Stdlib Require Import ZArith String Ascii List Bool Lia.
From stdpp Require Import base option list gmap strings pretty.

(** ** Python values, exceptions and string helpers *)

Module Py.

(** What [json.load] can return (floating-point numbers are left out:
    no script inspects one). *)
#[warnings="-register-all"] Inductive value : Type :=
| VNone
| VBool (b : bool)
| VInt (z : Z)
| VStr (s : string)
| VList (l : list value)
| VDict (d : list (string * value)).

(** A literal of the editor format: anything but a list or a dict. *)
Definition scalar (v : value) : bool :=
  match v with
  | VList _ | VDict _ => false
  | _ => true
  end.

Inductive exn : Type :=
| IndexError.

Inductive result (A : Type) : Type :=
| Ok (a : A)
| Raise (e : exn).
Arguments Ok {A} a.
Arguments Raise {A} e.

Definition bind {A B : Type} (m : result A) (f : A -> result B) : result B :=
  match m with
  | Ok a => f a
  | Raise e => Raise e
  end.

Definition is_ok {A : Type} (m : result A) : bool :=
  match m with
  | Ok _ => true
  | Raise _ => false
  end.

(** [str(n)] for an [int]: the decimal numeral, with a leading minus sign
    for negative numbers. *)
Definition str (n : Z) : string := pretty n.

(** [s.lower()].  The strings are the UTF-8 bytes of the Python text and
    only the ASCII letters are lowered; Python lowers the other letters too,
    which does not change whether the result contains "negative". *)
Definition lower_char (c : ascii) : ascii :=
  let n := nat_of_ascii c in
  if (65 <=? n)%nat && (n <=? 90)%nat then ascii_of_nat (n + 32) else c.

Fixpoint lower (s : string) : string :=
  match s with
  | EmptyString => EmptyString
  | String c s' => String (lower_char c) (lower s')
  end.

(** [sub in s] *)
Fixpoint contains (sub s : string) : bool :=
  String.prefix sub s ||
  match s with
  | EmptyString => false
  | String _ s' => contains sub s'
  end.

End Py.

Notation "x <- m ;; k" := (Py.bind m (fun x => k))
  (at level 100, m at next level, right associativity).

(** ** Insertion-ordered dictionaries

    [d[k] = v] keeps the position of a key that is already present and
    appends a new key at the end; iteration follows the list. *)

Module Dict.

Definition t (V : Type) : Type := list (string * V).

Fixpoint set {V : Type} (k : string) (v : V) (d : t V) : t V :=
  match d with
  | [] => [(k, v)]
  | (k', v') :: d' =>
      if decide (k = k') then (k, v) :: d' else (k', v') :: set k v d'
  end.

Fixpoint get {V : Type} (k : string) (d : t V) : option V :=
  match d with
  | [] => None
  | (k', v') :: d' => if decide (k = k') then Some v' else get k d'
  end.

Definition keys {V : Type} (d : t V) : list string := d.*1.

End Dict.

(** ** The editor (Web UI) workflow format *)

Module Editor.

(** One entry of [node['inputs']].  [link] is [None] when the key is
    absent, [Some None] when it is [null], [Some (Some i)] for a link
    id. *)
Record input_info : Type := {
  name : string;
  link : option (option Z)
}.

Record node : Type := {
  id : Z;
  type : string;
  title : option string;
  widgets_values : option (list Py.value);
  inputs : option (list input_info)
}.

(** One entry of [workflow['links']]: [link[0]], [link[1]], [link[2]] and
    whatever follows them. *)
Record link_entry : Type := {
  link_id : Z;
  source_node : Z;
  source_slot : Z;
  link_rest : list Py.value
}.

Record workflow : Type := {
  nodes : option (list node);
  links : option (list link_entry)
}.

Definition node_list (w : workflow) : list node := default [] (nodes w).
Definition link_list (w : workflow) : list link_entry := default [] (links w).
Definition input_list (n : node) : list input_info := default [] (inputs n).

(** A well-formed editor graph: every entry of the link table starts at a
    node of the graph, and widget values are literals. *)
Definition well_formed (w : workflow) : Prop :=
  Forall (fun l => Exists (fun n => id n = source_node l) (node_list w))
         (link_list w)
  /\ Forall (fun n => Forall (fun v => Py.scalar v = true)
                             (default [] (widgets_values n)))
            (node_list w).

(** The same graph with another list of nodes, another link table, and a
    node with another list of inputs. *)
Definition with_nodes (ns : list node) (w : workflow) : workflow :=
  {| nodes := Some ns; links := links w |}.
Definition with_links (ls : option (list link_entry)) (w : workflow) : workflow :=
  {| nodes := nodes w; links := ls |}.
Definition with_inputs (ins : list input_info) (n : node) : node :=
  {| id := id n; type := type n; title := title n;
     widgets_values := widgets_values n; inputs := Some ins |}.

End Editor.

(** ** The API (execution) format *)

Module Api.

(** [{"class_type": ..., "inputs": {...}, "_meta": {"title": ...}}];
    [meta_title] is [None] when the node has no ["_meta"] key. *)
Record node : Type := {
  class_type : string;
  inputs : gmap string Py.value;
  meta_title : option string
}.

(** [[source_node_id, source_output_index]] *)
Definition reference (source_node_id : string) (source_output_index : Z) : Py.value :=
  Py.VList [Py.VStr source_node_id; Py.VInt source_output_index].

Definition workflow : Type := Dict.t node.

(** No dangling reference: whenever an input of a node of [g] is a list
    [[src, slot]] with a string [src], [src] is a key of [g]. *)
Definition no_dangling (g : workflow) : Prop :=
  forall k a nm src slot,
    (k, a) ∈ g ->
    inputs a !! nm = Some (Py.VList [Py.VStr src; slot]) ->
    src ∈ Dict.keys g.

End Api.

(** ** [convert_workflow_to_api] (convert-workflow.py) *)

Module Converter.

(** The inner [for link in workflow['links']] loop: the first entry whose
    [link[0]] equals [link_id] sets the input and breaks. *)
Fixpoint scan_links (links : list Editor.link_entry) (link_id : option Z)
    (input_name : string) (inputs : gmap string Py.value) : gmap string Py.value :=
  match links with
  | [] => inputs
  | l :: rest =>
      if decide (Some (Editor.link_id l) = link_id)
      then <[input_name := Api.reference (Py.str (Editor.source_node l)) (Editor.source_slot l)]> inputs
      else scan_links rest link_id input_name inputs
  end.

(** The entry the loop stops at, if any: the first one whose [link[0]]
    equals [link_id]. *)
Fixpoint first_match (links : list Editor.link_entry) (link_id : option Z)
    : option Editor.link_entry :=
  match links with
  | [] => None
  | l :: rest =>
      if decide (Some (Editor.link_id l) = link_id) then Some l
      else first_match rest link_id
  end.

(** The entry an input slot resolves to in the link table of [w]. *)
Definition resolved (w : Editor.workflow) (x : Editor.input_info)
    : option Editor.link_entry :=
  match Editor.link x with
  | None => None
  | Some link_id => first_match (Editor.link_list w) link_id
  end.

(** The reference [scan_links] writes for an entry. *)
Definition reference_of (l : Editor.link_entry) : Py.value :=
  Api.reference (Py.str (Editor.source_node l)) (Editor.source_slot l).

(** The body of [for input_info in node['inputs']]. *)
Definition convert_input (w : Editor.workflow) (inputs : gmap string Py.value)
    (input_info : Editor.input_info) : gmap string Py.value :=
  match Editor.link input_info with
  | None => inputs
  | Some link_id =>
      match Editor.links w with
      | None => inputs
      | Some links => scan_links links link_id (Editor.name input_info) inputs
      end
  end.

(** [if 'widgets_values' in node: ...]; [node['widgets_values'][0]] raises
    [IndexError] on an empty list. *)
Definition convert_widgets (n : Editor.node) : Py.result (gmap string Py.value) :=
  match Editor.widgets_values n with
  | None => Py.Ok ∅
  | Some wv =>
      if decide (Editor.type n = "CLIPTextEncode")
      then match wv with
           | [] => Py.Raise Py.IndexError
           | v :: _ => Py.Ok (<["text" := v]> ∅)
           end
      else Py.Ok ∅
  end.

(** The body of [for node in workflow['nodes']], up to the assignment
    [api_workflow[node_id] = api_node]. *)
Definition convert_node (w : Editor.workflow) (n : Editor.node) : Py.result Api.node :=
  inputs0 <- convert_widgets n ;;
  let inputs1 :=
    match Editor.inputs n with
    | None => inputs0
    | Some ins => fold_left (convert_input w) ins inputs0
    end in
  Py.Ok {| Api.class_type := Editor.type n;
           Api.inputs := inputs1;
           Api.meta_title := Editor.title n |}.

Fixpoint convert_nodes (w : Editor.workflow) (ns : list Editor.node)
    (api_workflow : Api.workflow) : Py.result Api.workflow :=
  match ns with
  | [] => Py.Ok api_workflow
  | n :: rest =>
      api_node <- convert_node w n ;;
      convert_nodes w rest (Dict.set (Py.str (Editor.id n)) api_node api_workflow)
  end.

Definition convert_workflow_to_api (w : Editor.workflow) : Py.result Api.workflow :=
  match Editor.nodes w with
  | None => Py.Ok []
  | Some ns => convert_nodes w ns []
  end.

End Converter.

(** ** Prompt injection: the loops that pick the positive text node *)

Module Selector.

(** ["negative" not in title], for a title already defaulted to the empty
    string and lowered. *)
Definition lacks_negative (title : option string) : bool :=
  negb (Py.contains "negative" (Py.lower (default EmptyString title))).

(** [node["inputs"]["text"] = text] *)
Definition set_text (text : string) (node : Api.node) : Api.node :=
  {| Api.class_type := Api.class_type node;
     Api.inputs := <["text" := Py.VStr text]> (Api.inputs node);
     Api.meta_title := Api.meta_title node |}.

(** The test of the loop in convert-workflow.py. *)
Definition positive_api (node : Api.node) : bool :=
  bool_decide (Api.class_type node = "CLIPTextEncode")
  && lacks_negative (Api.meta_title node).

(** convert-workflow.py, "Update the positive prompt": iterate over
    [api_workflow.items()], update the first hit in place, [break]. *)
Fixpoint update_positive_prompt (text : string) (api_workflow : Api.workflow)
    : Api.workflow :=
  match api_workflow with
  | [] => []
  | (node_id, node) :: rest =>
      if positive_api node
      then (node_id, set_text text node) :: rest
      else (node_id, node) :: update_positive_prompt text rest
  end.

(** [node['widgets_values'] = [prompt_text]] *)
Definition set_widgets (prompt_text : string) (node : Editor.node) : Editor.node :=
  {| Editor.id := Editor.id node;
     Editor.type := Editor.type node;
     Editor.title := Editor.title node;
     Editor.widgets_values := Some [Py.VStr prompt_text];
     Editor.inputs := Editor.inputs node |}.

(** The test of the loops in generate-images-local.py and
    generate-images-working.py:
    [node.get('type') == 'CLIPTextEncode' and 'widgets_values' in node],
    then ['negative' not in title]. *)
Definition positive_editor (node : Editor.node) : bool :=
  bool_decide (Editor.type node = "CLIPTextEncode")
  && bool_decide (is_Some (Editor.widgets_values node))
  && lacks_negative (Editor.title node).

(** generate-images-working.py: the first hit is updated, its lowered title
    is printed, [break].  Returns the nodes and the printed title. *)
Fixpoint inject_working (prompt_text : string) (nodes : list Editor.node)
    : list Editor.node * option string :=
  match nodes with
  | [] => ([], None)
  | node :: rest =>
      if positive_editor node
      then (set_widgets prompt_text node :: rest,
            Some (Py.lower (default EmptyString (Editor.title node))))
      else let '(rest', printed) := inject_working prompt_text rest in
           (node :: rest', printed)
  end.

(** generate-images-local.py: the same loop body without the [break]. *)
Fixpoint inject_local (prompt_text : string) (nodes : list Editor.node)
    : list Editor.node :=
  match nodes with
  | [] => []
  | node :: rest =>
      (if positive_editor node then set_widgets prompt_text node else node)
      :: inject_local prompt_text rest
  end.

(** [x] is the first element of [xs] that passes the test [P]: [xs1] comes
    before it, [xs2] after it. *)
Definition first_hit {A : Type} (P : A -> bool) (xs xs1 : list A) (x : A)
    (xs2 : list A) : Prop :=
  xs = xs1 ++ x :: xs2 /\ Forall (fun y => P y = false) xs1 /\ P x = true.

(** [if 'nodes' in workflow_dict: ...] around the loop of
    generate-images-local.py. *)
Definition inject_local_workflow (prompt_text : string) (w : Editor.workflow)
    : Editor.workflow :=
  {| Editor.nodes := inject_local prompt_text <$> Editor.nodes w;
     Editor.links := Editor.links w |}.

End Selector.

(** ** [parse_broll_prompts] (generate-images-local.py and
       generate-images-working.py, the same text in both) *)

Module Parser.

Definition nl : string := String (ascii_of_nat 10) EmptyString.

(** [\d] on ASCII text *)
Definition is_digit (c : ascii) : bool :=
  let n := nat_of_ascii c in (48 <=? n)%nat && (n <=? 57)%nat.

(** Greedy [\d*]: the digits in front of [s] and what follows them. *)
Fixpoint take_digits (s : string) : string * string :=
  match s with
  | EmptyString => (EmptyString, EmptyString)
  | String c s' =>
      if is_digit c
      then let '(ds, rest) := take_digits s' in (String c ds, rest)
      else (EmptyString, s)
  end.

(** A literal in front of [s]: what follows it. *)
Fixpoint strip_prefix (p s : string) : option string :=
  match p with
  | EmptyString => Some s
  | String a p' =>
      match s with
      | EmptyString => None
      | String b s' => if decide (a = b) then strip_prefix p' s' else None
      end
  end.

(** Lazy [.*?] (with DOTALL) followed by the literal [pat]: the text before
    the first occurrence of [pat] and the text after it. *)
Fixpoint split_at (pat s : string) : option (string * string) :=
  match strip_prefix pat s with
  | Some rest => Some (EmptyString, rest)
  | None =>
      match s with
      | EmptyString => None
      | String c s' =>
          match split_at pat s' with
          | Some (before, rest) => Some (String c before, rest)
          | None => None
          end
      end
  end.

Definition consumed (s rest : string) : nat :=
  String.length s - String.length rest.

(** [r'## Scene (\d+).*?```\n(.*?)\n```'] with [re.DOTALL], anchored at the
    front of [s]: the two groups and the length of the match. *)
Definition match_scene (s : string) : option ((string * string) * nat) :=
  match strip_prefix "## Scene " s with
  | None => None
  | Some s1 =>
      let '(scene_num, s2) := take_digits s1 in
      if decide (scene_num = EmptyString) then None else
      match split_at ("```" +:+ nl) s2 with
      | None => None
      | Some (_, s3) =>
          match split_at (nl +:+ "```") s3 with
          | None => None
          | Some (prompt, s4) => Some ((scene_num, prompt), consumed s s4)
          end
      end
  end.

(** [r'# Episode (\d+) B-roll Prompts'], anchored at the front of [s]. *)
Definition match_episode (s : string) : option (string * nat) :=
  match strip_prefix "# Episode " s with
  | None => None
  | Some s1 =>
      let '(episode_num, s2) := take_digits s1 in
      if decide (episode_num = EmptyString) then None else
      match strip_prefix " B-roll Prompts" s2 with
      | None => None
      | Some s3 => Some (episode_num, consumed s s3)
      end
  end.

(** [re.findall]: leftmost matches, left to right, without overlap.  [skip]
    counts the characters of the last match still to be passed over. *)
Fixpoint findall_from {A : Type} (m : string -> option (A * nat))
    (skip : nat) (s : string) : list A :=
  match s with
  | EmptyString => []
  | String _ s' =>
      match skip with
      | S k => findall_from m k s'
      | O =>
          match m s with
          | Some (groups, len) => groups :: findall_from m (len - 1) s'
          | None => findall_from m 0 s'
          end
      end
  end.

Definition findall {A : Type} (m : string -> option (A * nat)) (s : string)
    : list A :=
  findall_from m 0 s.

(** [int(s)] for a string of decimal digits *)
Definition digit_value (c : ascii) : Z := Z.of_nat (nat_of_ascii c - 48).

Fixpoint int_from (acc : Z) (s : string) : Z :=
  match s with
  | EmptyString => acc
  | String c s' => int_from (10 * acc + digit_value c) s'
  end.

Definition int (s : string) : Z := int_from 0 s.

(** [str.isspace] on ASCII: tab, newline, vertical tab, form feed, carriage
    return, the four separators 28..31 and the space. *)
Definition is_space (c : ascii) : bool :=
  let n := nat_of_ascii c in
  ((9 <=? n)%nat && (n <=? 13)%nat) || ((28 <=? n)%nat && (n <=? 32)%nat).

Fixpoint lstrip (s : string) : string :=
  match s with
  | EmptyString => EmptyString
  | String c s' => if is_space c then lstrip s' else s
  end.

Fixpoint rstrip (s : string) : string :=
  match s with
  | EmptyString => EmptyString
  | String c s' =>
      match rstrip s' with
      | EmptyString => if is_space c then EmptyString else String c EmptyString
      | r => String c r
      end
  end.

(** [s.strip()] *)
Definition strip (s : string) : string := rstrip (lstrip s).

Record prompt_record : Type := {
  episode : Z;
  scene : Z;
  prompt : string
}.

(** [parse_broll_prompts], on the text read from the markdown file.  The
    episode pattern is searched in the whole of [content] for every scene. *)
Definition parse_broll_prompts (content : string) : list prompt_record :=
  let matches := findall match_scene content in
  (fun '(scene_num, prompt_text) =>
     let episode_matches := findall match_episode content in
     let episode_num := List.last episode_matches "1" in
     {| episode := int episode_num;
        scene := int scene_num;
        prompt := strip prompt_text |}) <$> matches.

(** What the comment in the loop announces ("Get episode number from the
    content before this scene"): the episode headings are searched in the
    text that precedes the scene.  Defined from the comment and the
    specification, to be compared with [parse_broll_prompts]. *)
Fixpoint scenes_with_prefix (before : string) (skip : nat) (s : string)
    : list (string * (string * string)) :=
  match s with
  | EmptyString => []
  | String c s' =>
      match skip with
      | S k => scenes_with_prefix (before +:+ String c EmptyString) k s'
      | O =>
          match match_scene s with
          | Some (groups, len) =>
              (before, groups)
              :: scenes_with_prefix (before +:+ String c EmptyString) (len - 1) s'
          | None => scenes_with_prefix (before +:+ String c EmptyString) 0 s'
          end
      end
  end.

Definition parse_preceding_episode (content : string) : list prompt_record :=
  (fun '(before, (scene_num, prompt_text)) =>
     {| episode := int (List.last (findall match_episode before) "1");
        scene := int scene_num;
        prompt := strip prompt_text |})
  <$> scenes_with_prefix EmptyString 0 content.

(** A document from its lines. *)
Definition unlines (ls : list string) : string :=
  foldr (fun l acc => l +:+ nl +:+ acc) EmptyString ls.

End Parser.

(** ** [generate_image] (generate-images-working.py)

    The function talks to the ComfyUI server and to the file system.  The
    answers it gets are collected in a [world]; what it does is recorded, in
    order, as a list of [event]s next to the value it returns. *)

Module Client.

(** [{"filename": ...}] *)
Record image : Type := { filename : string }.

(** One value of [outputs]; [images] is [None] without an ['images'] key. *)
Record output : Type := { images : option (list image) }.

(** [history[prompt_id]]; [outputs] is [None] without an ['outputs'] key. *)
Record history_entry : Type := { outputs : option (Dict.t output) }.

(** The answer to [requests.post]: an exception, or a response with
    [status_code], [text] and what [response.json().get('prompt_id')] gives
    ([None] when [json()] raises, [Some None] when the key is missing). *)
Inductive post_answer : Type :=
| PostRaises
| PostResponse (status_code : Z) (text : string) (prompt_id : option (option string)).

(** The answer to [requests.get]: an exception, or a response with
    [status_code] and its parsed body ([None] when [json()] raises). *)
Inductive get_answer : Type :=
| GetRaises
| GetResponse (status_code : Z) (history : option (gmap string history_entry)).

Record world : Type := {
  (** [json.load] of the workflow file; [None] when it raises *)
  workflow_file : option Editor.workflow;
  (** the answer to the POST of a payload *)
  post : Editor.workflow -> post_answer;
  (** the answer to the [i]-th GET of the history of a prompt id *)
  get : nat -> option string -> get_answer;
  (** [os.path.exists] *)
  path_exists : string -> bool;
  (** whether [shutil.copy2] succeeds *)
  copy_succeeds : string -> string -> bool
}.

(** The lines the function prints, by their format string. *)
Inductive message : Type :=
| Updated (title : string)          (* "Updated prompt in node: {title}" *)
| Submitting                        (* "Submitting to ComfyUI..." *)
| Submitted (prompt_id : option string)  (* "Submitted! Prompt ID: {prompt_id}" *)
| Complete                          (* "Generation complete!" *)
| Generated (output_path : string)  (* "Generated: {output_path}" *)
| TimedOutWaiting                   (* "Timeout waiting for image generation" *)
| FailedToSubmit (status_code : Z) (text : string)
                                    (* "Failed to submit: {status_code} - {text}" *)
| ErrorGenerating.                  (* "Error generating image: {e}" *)

Inductive event : Type :=
| Prints (m : message)
| Posts (payload : Editor.workflow)
| Gets (prompt_id : option string)
| Sleeps (seconds : nat)
| Copies (source_path output_path : string).

(** How the body of the [try] block ends. *)
Inductive ending : Type :=
| Returns (b : bool)
| Raises.

Definition output_dir : string := "/Users/even/projects/personal/ComfyUI/output/".

(** [for img in output['images']]: the first image whose file exists. *)
Fixpoint first_existing (w : world) (imgs : list image) : option string :=
  match imgs with
  | [] => None
  | img :: rest =>
      let source_path := output_dir +:+ filename img in
      if path_exists w source_path then Some source_path
      else first_existing w rest
  end.

(** [for node_id, output in outputs.items()] around it. *)
Fixpoint first_image (w : world) (outs : Dict.t output) : option string :=
  match outs with
  | [] => None
  | (_, out) :: rest =>
      match first_existing w (default [] (images out)) with
      | Some source_path => Some source_path
      | None => first_image w rest
      end
  end.

(** The outputs a poll reports: those of [history[prompt_id]] when the
    answer has status 200 and [prompt_id in history], else nothing. *)
Definition reported_outputs (prompt_id : option string)
    (history : gmap string history_entry) : Dict.t output :=
  match prompt_id with
  | None => []
  | Some pid =>
      match history !! pid with
      | None => []
      | Some entry => default [] (outputs entry)
      end
  end.

(** What follows the [for i in range(60)] loop. *)
Definition after_loop : ending * list event := (Returns false, [Prints TimedOutWaiting]).

(** [for i in range(...)]: [i] is the number of the attempt, [remaining]
    the attempts left. *)
Fixpoint poll (w : world) (prompt_id : option string) (output_path : string)
    (i remaining : nat) : ending * list event :=
  match remaining with
  | O => after_loop
  | S remaining' =>
      let continue :=
        let '(e, tr) := poll w prompt_id output_path (S i) remaining' in
        (e, Gets prompt_id :: Sleeps 1 :: tr) in
      match get w i prompt_id with
      | GetRaises => (Raises, [Gets prompt_id])
      | GetResponse status_code body =>
          if decide (status_code = 200%Z) then
            match body with
            | None => (Raises, [Gets prompt_id])
            | Some history =>
                match reported_outputs prompt_id history with
                | [] => continue
                | outs =>
                    match first_image w outs with
                    | Some source_path =>
                        if copy_succeeds w source_path output_path
                        then (Returns true,
                              [Gets prompt_id; Prints Complete;
                               Copies source_path output_path;
                               Prints (Generated output_path)])
                        else (Raises,
                              [Gets prompt_id; Prints Complete;
                               Copies source_path output_path])
                    | None =>
                        let '(e, tr) := after_loop in
                        (e, Gets prompt_id :: Prints Complete :: tr)
                    end
                end
            end
          else continue
      end
  end.

Definition max_attempts : nat := 60.

(** The prompt injection at the head of the [try] block: the workflow that
    is submitted and the line printed on the way. *)
Definition inject (prompt_text : string) (workflow : Editor.workflow)
    : Editor.workflow * list event :=
  match Editor.nodes workflow with
  | None => (workflow, [])
  | Some nodes =>
      let '(nodes', printed) := Selector.inject_working prompt_text nodes in
      ({| Editor.nodes := Some nodes'; Editor.links := Editor.links workflow |},
       match printed with
       | Some title => [Prints (Updated title)]
       | None => []
       end)
  end.

(** The body of the [try] block. *)
Definition try_generate_image (w : world) (prompt_text output_path : string)
    : ending * list event :=
  match workflow_file w with
  | None => (Raises, [])
  | Some workflow =>
      let '(workflow', updated) := inject prompt_text workflow in
      let before := updated ++ [Prints Submitting; Posts workflow'] in
      match post w workflow' with
      | PostRaises => (Raises, before)
      | PostResponse status_code text result =>
          if decide (status_code = 200%Z) then
            match result with
            | None => (Raises, before)
            | Some prompt_id =>
                let '(e, tr) := poll w prompt_id output_path 0 max_attempts in
                (e, before ++ Prints (Submitted prompt_id) :: tr)
            end
          else (Returns false, before ++ [Prints (FailedToSubmit status_code text)])
      end
  end.

(** [generate_image]: the value returned and the events, in order. *)
Definition generate_image (w : world) (prompt_text output_path : string)
    : bool * list event :=
  match try_generate_image w prompt_text output_path with
  | (Returns b, tr) => (b, tr)
  | (Raises, tr) => (false, tr ++ [Prints ErrorGenerating])
  end.

(** The GET requests among the events. *)
Definition is_get (e : event) : bool :=
  match e with
  | Gets _ => true
  | _ => false
  end.

Definition polls (tr : list event) : list event := List.filter is_get tr.

(** A poll that is answered and reports no outputs: a status other than
    200, or a body in which the prompt id is missing or has no outputs. *)
Definition pending (prompt_id : option string) (r : get_answer) : bool :=
  match r with
  | GetRaises => false
  | GetResponse status_code body =>
      if decide (status_code = 200%Z) then
        match body with
        | None => false
        | Some history =>
            match reported_outputs prompt_id history with
            | [] => true
            | _ => false
            end
        end
      else true
  end.

(** The events of [n] polls that all found the job pending. *)
Fixpoint idle_polls (prompt_id : option string) (n : nat) : list event :=
  match n with
  | O => []
  | S n' => Gets prompt_id :: Sleeps 1 :: idle_polls prompt_id n'
  end.

End Client.

(** ** Sample graphs *)

Module Sample.

Definition slot (nm : string) (l : Z) : Editor.input_info :=
  {| Editor.name := nm; Editor.link := Some (Some l) |}.

Definition edge (i s o : Z) : Editor.link_entry :=
  {| Editor.link_id := i; Editor.source_node := s; Editor.source_slot := o;
     Editor.link_rest := [Py.VInt 6; Py.VInt 0; Py.VStr "CLIP"] |}.

Definition loader : Editor.node :=
  {| Editor.id := 12; Editor.type := "CLIPLoader"; Editor.title := None;
     Editor.widgets_values := Some [Py.VStr "clip.safetensors"];
     Editor.inputs := None |}.

Definition encoder (ins : list Editor.input_info) : Editor.node :=
  {| Editor.id := 6; Editor.type := "CLIPTextEncode";
     Editor.title := Some "CLIP Text Encode (Positive)";
     Editor.widgets_values := Some [Py.VStr "hello"];
     Editor.inputs := Some ins |}.

(** A loader feeding the [clip] input of a text encoder through link 7. *)
Definition plain : Editor.workflow :=
  {| Editor.nodes := Some [loader; encoder [slot "clip" 7]];
     Editor.links := Some [edge 7 12 0] |}.

(** What [plain] converts to. *)
Definition plain_api : Api.workflow :=
  [("12", {| Api.class_type := "CLIPLoader"; Api.inputs := ∅;
             Api.meta_title := None |});
   ("6", {| Api.class_type := "CLIPTextEncode";
            Api.inputs := <["clip" := Api.reference "12" 0]>
                            (<["text" := Py.VStr "hello"]> ∅);
            Api.meta_title := Some "CLIP Text Encode (Positive)" |})].

(** The text widget of the encoder turned into an input fed by link 7. *)
Definition collision : Editor.workflow :=
  {| Editor.nodes := Some [loader; encoder [slot "text" 7]];
     Editor.links := Some [edge 7 12 0] |}.

(** The [text] input of the encoder names link 5, which the table lacks. *)
Definition unresolved : Editor.workflow :=
  {| Editor.nodes := Some [loader; encoder [slot "text" 5; slot "clip" 7]];
     Editor.links := Some [edge 7 12 0] |}.

(** Link 7 starts at node 99, which the graph does not have. *)
Definition dangling : Editor.workflow :=
  {| Editor.nodes := Some [loader; encoder [slot "clip" 7]];
     Editor.links := Some [edge 7 99 0] |}.

(** [unresolved] without the slot that names link 5. *)
Definition unresolved_removed : Editor.workflow :=
  {| Editor.nodes := Some [loader; encoder [slot "clip" 7]];
     Editor.links := Some [edge 7 12 0] |}.

(** Two text encoders of the API format, the negative one first. *)
Definition api_encoder (title : string) (text : string) : Api.node :=
  {| Api.class_type := "CLIPTextEncode";
     Api.inputs := <["clip" := Api.reference "4" 1]> (<["text" := Py.VStr text]> ∅);
     Api.meta_title := Some title |}.

Definition negative_then_positive : Api.workflow :=
  [("4", {| Api.class_type := "CheckpointLoaderSimple"; Api.inputs := ∅;
            Api.meta_title := Some "Load Checkpoint" |});
   ("7", api_encoder "CLIP Text Encode (Negative)" "blurry, low quality");
   ("6", api_encoder "CLIP Text Encode (Positive)" "a dish")].

(** The same two encoders in the editor format. *)
Definition editor_encoder (i : Z) (title : option string)
    (wv : option (list Py.value)) : Editor.node :=
  {| Editor.id := i; Editor.type := "CLIPTextEncode"; Editor.title := title;
     Editor.widgets_values := wv; Editor.inputs := Some [slot "clip" 7] |}.

Definition editor_negative : Editor.node :=
  editor_encoder 7 (Some "CLIP Text Encode (Negative)") (Some [Py.VStr "blurry"]).
Definition editor_positive : Editor.node :=
  editor_encoder 6 (Some "CLIP Text Encode (Positive)") (Some [Py.VStr "a dish"]).

(** A positive encoder without a [widgets_values] key, and an untitled one. *)
Definition editor_bare : Editor.node :=
  editor_encoder 5 (Some "CLIP Text Encode (Positive)") None.
Definition editor_untitled : Editor.node :=
  editor_encoder 8 None (Some [Py.VStr "a street"]).

(** Two episodes with one scene each. *)
Definition two_episodes : string := Parser.unlines
  ["# Episode 1 B-roll Prompts"; EmptyString;
   "## Scene 1: kitchen"; "```"; "  first prompt "; "```"; EmptyString;
   "# Episode 2 B-roll Prompts"; EmptyString;
   "## Scene 2"; "```"; "second"; "```"].

(** One episode with two scenes. *)
Definition one_episode : string := Parser.unlines
  ["# Episode 3 B-roll Prompts"; EmptyString;
   "## Scene 1: kitchen"; "```"; "  first prompt "; "```"; EmptyString;
   "## Scene 2"; "```"; "second"; "```"].

(** A scene that comes before the only episode heading. *)
Definition scene_first : string := Parser.unlines
  ["## Scene 4"; "```"; "early"; "```"; EmptyString;
   "# Episode 2 B-roll Prompts"; EmptyString;
   "## Scene 5"; "```"; "late"; "```"].

(** A workflow file with the two encoders, negative first. *)
Definition workflow_file : Editor.workflow :=
  {| Editor.nodes := Some [loader; editor_negative; editor_positive];
     Editor.links := Some [edge 7 12 0] |}.

(** A server that accepts the submission as prompt [job-1] and answers every
    poll with an empty history. *)
Definition silent : Client.world :=
  {| Client.workflow_file := Some workflow_file;
     Client.post := fun _ => Client.PostResponse 200 "{}" (Some (Some "job-1"));
     Client.get := fun _ _ => Client.GetResponse 200 (Some ∅);
     Client.path_exists := fun _ => false;
     Client.copy_succeeds := fun _ _ => true |}.

(** A server that rejects the submission with the given status and body. *)
Definition rejecting (status_code : Z) (body : string) : Client.world :=
  {| Client.workflow_file := Some workflow_file;
     Client.post := fun _ => Client.PostResponse status_code body None;
     Client.get := fun _ _ => Client.GetRaises;
     Client.path_exists := fun _ => false;
     Client.copy_succeeds := fun _ _ => true |}.

End Sample.

(** ** The loop of debug-workflow-submit.py *)

Module Debug.

(** What the loop prints: "Found CLIPTextEncode node {i}: {title}" and
    "Updating positive prompt node {i}". *)
Inductive line : Type :=
| Found (i : nat) (title : string)
| Updating (i : nat).

(** [for i, node in enumerate(workflow['nodes'])]: every text encoder met is
    reported; the first one whose lowered title lacks "negative" gets
    [widgets_values = [prompt_text]] and ends the loop.  The script uses the
    prompt "a beautiful landscape". *)
Fixpoint update_from (prompt_text : string) (i : nat) (nodes : list Editor.node)
    : list Editor.node * list line :=
  match nodes with
  | [] => ([], [])
  | node :: rest =>
      if bool_decide (Editor.type node = "CLIPTextEncode") then
        let title := Py.lower (default EmptyString (Editor.title node)) in
        if negb (Py.contains "negative" title)
        then (Selector.set_widgets prompt_text node :: rest,
              [Found i title; Updating i])
        else let '(rest', printed) := update_from prompt_text (S i) rest in
             (node :: rest', Found i title :: printed)
      else let '(rest', printed) := update_from prompt_text (S i) rest in
           (node :: rest', printed)
  end.

Definition update_positive (prompt_text : string) (nodes : list Editor.node)
    : list Editor.node * list line :=
  update_from prompt_text 0 nodes.

(** The test of this loop: a text encoder whose title lacks "negative". *)
Definition positive (node : Editor.node) : bool :=
  bool_decide (Editor.type node = "CLIPTextEncode")
  && Selector.lacks_negative (Editor.title node).

End Debug.

(** ** Documents in the format the parser expects

    An episode heading followed by scene blocks: a heading "## Scene <n>"
    with some title text, and the prompt between two fences. *)

Module Markdown.

(** Every character of [s] passes [P]. *)
Fixpoint all (P : ascii -> bool) (s : string) : bool :=
  match s with
  | EmptyString => true
  | String c s' => P c && all P s'
  end.

(** Plain text: no "#" and no backtick. *)
Definition not_hash (c : ascii) : bool := negb (Ascii.eqb c "#").
Definition not_backtick (c : ascii) : bool := negb (Ascii.eqb c "`").
Definition plain_char (c : ascii) : bool := not_hash c && not_backtick c.

Definition plain (s : string) : bool := all plain_char s.



Record scene : Type := {
  number_text : string;
  heading_rest : string;
  body : string
}.

Definition fence : string := "```".

Definition scene_block (s : scene) : string :=
  "## Scene " +:+ number_text s +:+ heading_rest s +:+ Parser.nl
  +:+ fence +:+ Parser.nl +:+ body s +:+ Parser.nl +:+ fence +:+ Parser.nl.

Definition episode_heading (e : string) : string :=
  "# Episode " +:+ e +:+ " B-roll Prompts" +:+ Parser.nl.

Definition blocks (scenes : list scene) : string :=
  foldr (fun s acc => scene_block s +:+ acc) EmptyString scenes.

Definition document (e : string) (scenes : list scene) : string :=
  episode_heading e +:+ blocks scenes.


End Markdown.

(** ** The [main] functions of generate-images-working.py and
       generate-images-local.py

    What the process gets from outside is collected in a [system]: the
    command line, the [/] of [pathlib], the text of a file, whether a
    directory can be made, and for the rest the [Client.world], whose
    [path_exists] also answers [Path.exists].  [generate_image] of
    generate-images-local.py goes through the [comfy_api_simplified] library
    and is taken as it answers. *)

Module Driver.

Record system : Type := {
  (** [sys.argv] *)
  argv : list string;
  (** [directory / name] *)
  joinpath : string -> string -> string;
  (** [open(path).read()]; [None] when it raises *)
  read_text : string -> option string;
  (** whether [mkdir(exist_ok=True)] returns *)
  make_dir : string -> bool;
  server : Client.world;
  (** [generate_image] of generate-images-local.py *)
  generate_local : string -> string -> bool
}.

Definition workflow_path : string :=
  "/Users/even/projects/personal/mall-deths/comfyui_workflow.json".

(** The lines the two functions print, by their format string; [Progress]
    shows the first 100 characters of the prompt. *)
Inductive line : Type :=
| Usage                                  (* "Usage: python ... <story-output-dir>" *)
| BrollNotFound (path : string)          (* "Broll prompts not found: {broll_file}" *)
| WorkflowNotFound (path : string)       (* "Workflow not found: {workflow_path}" *)
| Parsing                                (* "Parsing broll prompts..." *)
| FoundPrompts (n : nat)                 (* "Found {len(prompts)} prompts" *)
| Generating (position : option (nat * nat)) (episode scene : Z)
      (* "[{i+1}/{len(prompts)}] Generating Episode {episode}, Scene {scene}" *)
| Progress (prompt_text : string)        (* "Prompt: {prompt_text[:100]}..." *)
| Succeeded                              (* "SUCCESS! Generated first image" *)
| Failed                                 (* "Failed to generate image" *)
| CompleteBatch (generated total : nat). (* "Complete! Generated {generated}/{len(prompts)} images" *)

Inductive event : Type :=
| Says (l : line)
| MakesDir (path : string)
| Calls (prompt_text output_path : string) (result : bool)
| Pauses (seconds : nat).

(** How the process ends: [sys.exit(status)], a normal return, or an
    exception that nothing catches. *)
Inductive ending : Type :=
| Exits (status : Z)
| Returns
| RaisesIndexError
| RaisesOSError.

(** [f"episode-{episode}-scene-{scene}.png"] *)
Definition output_name (r : Parser.prompt_record) : string :=
  "episode-" +:+ Py.str (Parser.episode r) +:+ "-scene-"
  +:+ Py.str (Parser.scene r) +:+ ".png".

(** The part the two functions have in common, up to [parse_broll_prompts]:
    either the process ends, or the prompts are parsed and the images
    directory is known. *)
Definition startup (sys : system)
    : (ending * list event) + (string * list Parser.prompt_record * list event) :=
  match argv sys with
  | _ :: story_dir :: _ =>
      let broll_file := joinpath sys story_dir "broll-prompts.md" in
      let images_dir := joinpath sys story_dir "images" in
      if negb (Client.path_exists (server sys) broll_file)
      then inl (Exits 1, [Says (BrollNotFound broll_file)])
      else if negb (make_dir sys images_dir)
      then inl (RaisesOSError, [MakesDir images_dir])
      else if negb (Client.path_exists (server sys) workflow_path)
      then inl (Exits 1, [MakesDir images_dir; Says (WorkflowNotFound workflow_path)])
      else match read_text sys broll_file with
           | None => inl (RaisesOSError, [MakesDir images_dir; Says Parsing])
           | Some content =>
               let prompts := Parser.parse_broll_prompts content in
               inr (images_dir, prompts,
                    [MakesDir images_dir; Says Parsing;
                     Says (FoundPrompts (length prompts))])
           end
  | _ => inl (Exits 1, [Says Usage])
  end.

(** [main] of generate-images-working.py: [prompts[0]] only. *)
Definition main_working (sys : system) : ending * list event :=
  match startup sys with
  | inl ended => ended
  | inr (images_dir, prompts, before) =>
      match prompts with
      | [] => (RaisesIndexError, before)
      | prompt_data :: _ =>
          let output_file := joinpath sys images_dir (output_name prompt_data) in
          let result :=
            (Client.generate_image (server sys) (Parser.prompt prompt_data)
               output_file).1 in
          (Returns,
           before
           ++ [Says (Generating None (Parser.episode prompt_data)
                                     (Parser.scene prompt_data));
               Says (Progress (Parser.prompt prompt_data));
               Calls (Parser.prompt prompt_data) output_file result;
               Says (if result then Succeeded else Failed)])
      end
  end.

(** [for i, prompt_data in enumerate(prompts)] of generate-images-local.py:
    the count of generated images and the events. *)
Fixpoint batch (sys : system) (images_dir : string) (total i generated : nat)
    (prompts : list Parser.prompt_record) : nat * list event :=
  match prompts with
  | [] => (generated, [])
  | prompt_data :: rest =>
      let output_file := joinpath sys images_dir (output_name prompt_data) in
      let result := generate_local sys (Parser.prompt prompt_data) output_file in
      let '(count, tr) :=
        batch sys images_dir total (S i)
              (if result then S generated else generated) rest in
      (count,
       Says (Generating (Some (S i, total)) (Parser.episode prompt_data)
                        (Parser.scene prompt_data))
       :: Says (Progress (Parser.prompt prompt_data))
       :: Calls (Parser.prompt prompt_data) output_file result
       :: Pauses 1 :: tr)
  end.

(** [main] of generate-images-local.py. *)
Definition main_local (sys : system) : ending * list event :=
  match startup sys with
  | inl ended => ended
  | inr (images_dir, prompts, before) =>
      let '(generated, tr) := batch sys images_dir (length prompts) 0 0 prompts in
      (Returns, before ++ tr ++ [Says (CompleteBatch generated (length prompts))])
  end.

(** The calls of [generate_image] among the events. *)
Definition is_call (e : event) : bool :=
  match e with
  | Calls _ _ _ => true
  | _ => false
  end.

Definition calls (tr : list event) : list event := List.filter is_call tr.

Definition is_mkdir (e : event) : bool :=
  match e with
  | MakesDir _ => true
  | _ => false
  end.

End Driver.

(** ** Reading the events of a run *)

Module Trace.

Definition is_post (e : Client.event) : bool :=
  match e with
  | Client.Posts _ => true
  | _ => false
  end.

Definition is_copy (e : Client.event) : bool :=
  match e with
  | Client.Copies _ _ => true
  | _ => false
  end.

Definition posts (tr : list Client.event) : list Client.event :=
  List.filter is_post tr.

Definition copies (tr : list Client.event) : list Client.event :=
  List.filter is_copy tr.

(** The files the two [for] loops over the outputs look for, in the order in
    which they look. *)
Definition candidates (outs : Dict.t Client.output) : list string :=
  flat_map (fun e => (fun img => Client.output_dir +:+ Client.filename img)
                     <$> default [] (Client.images e.2)) outs.

End Trace.

(** ** A check for dangling references that can be run *)

Module Checker.

Definition reference_ok (keys : list string) (v : Py.value) : bool :=
  match v with
  | Py.VList [Py.VStr src; _] => bool_decide (src ∈ keys)
  | _ => true
  end.

Definition no_dangling (g : Api.workflow) : Prop :=
  Forall (fun e => map_Forall (fun _ v => reference_ok (Dict.keys g) v = true)
                              (Api.inputs e.2)) g.

End Checker.

(** ** More sample graphs *)

Module Fixture.

Definition node (i : Z) (ty : string) (wv : option (list Py.value))
    (ins : list Editor.input_info) : Editor.node :=
  {| Editor.id := i; Editor.type := ty; Editor.title := None;
     Editor.widgets_values := wv; Editor.inputs := Some ins |}.

(** A text encoder whose [widgets_values] is the empty list. *)
Definition empty_widgets : Editor.workflow :=
  {| Editor.nodes := Some [Sample.loader; node 6 "CLIPTextEncode" (Some []) []];
     Editor.links := Some [Sample.edge 7 12 0] |}.

(** Two nodes with the id 6, a sampler first and a text encoder last. *)
Definition twice_six : Editor.workflow :=
  {| Editor.nodes :=
       Some [node 6 "KSampler" None [Sample.slot "model" 7];
             Sample.loader;
             Sample.encoder [Sample.slot "clip" 7]];
     Editor.links := Some [Sample.edge 7 12 0] |}.

(** A slot without a [link] key and a slot whose [link] is [null]. *)
Definition unlinked (nm : string) : Editor.input_info :=
  {| Editor.name := nm; Editor.link := None |}.
Definition null_link (nm : string) : Editor.input_info :=
  {| Editor.name := nm; Editor.link := Some None |}.

(** [Sample.plain] without its [links] key. *)
Definition no_links : Editor.workflow :=
  {| Editor.nodes := Editor.nodes Sample.plain; Editor.links := None |}.

(** A server that accepts the submission as prompt [job-1], answers the
    first [quiet] polls with an empty history and every later poll with
    [answer]; [present] tells which files exist. *)
Definition answering (quiet : nat) (answer : Client.get_answer)
    (present : string -> bool) : Client.world :=
  {| Client.workflow_file := Some Sample.workflow_file;
     Client.post := fun _ => Client.PostResponse 200 "{}" (Some (Some "job-1"));
     Client.get := fun i _ =>
       if (i <? quiet)%nat then Client.GetResponse 200 (Some ∅) else answer;
     Client.path_exists := present;
     Client.copy_succeeds := fun _ _ => true |}.

(** A history in which node 9 of [job-1] has saved the two images
    [a.png] and [b.png]. *)
Definition saved : gmap string Client.history_entry :=
  {["job-1" :=
      {| Client.outputs :=
           Some [("9", {| Client.images :=
                            Some [{| Client.filename := "a.png" |};
                                  {| Client.filename := "b.png" |}] |})] |}]}.

Definition two_images : Client.get_answer := Client.GetResponse 200 (Some saved).

Definition only_b (path : string) : bool :=
  String.eqb path (Client.output_dir +:+ "b.png").

Definition nothing (path : string) : bool := false.

(** Two scenes of episode 3; the second prompt has two lines. *)
Definition scenes : list Markdown.scene :=
  [{| Markdown.number_text := "1"; Markdown.heading_rest := ": kitchen";
      Markdown.body := "  first prompt " |};
   {| Markdown.number_text := "12"; Markdown.heading_rest := EmptyString;
      Markdown.body := "second" +:+ Parser.nl +:+ "line" |}].

(** A process started with a story directory in which everything is in
    place: [files] tells which paths exist, [content] is the text of the
    prompts file and [results] what [generate_image] of
    generate-images-local.py answers for a prompt. *)
Definition process (args : list string) (files : string -> bool)
    (content : string) (results : string -> bool) : Driver.system :=
  {| Driver.argv := args;
     Driver.joinpath := fun directory name => directory +:+ "/" +:+ name;
     Driver.read_text := fun _ => Some content;
     Driver.make_dir := fun _ => true;
     Driver.server :=
       {| Client.workflow_file := Some Sample.workflow_file;
          Client.post := fun _ => Client.PostResponse 500 "busy" None;
          Client.get := fun _ _ => Client.GetRaises;
          Client.path_exists := files;
          Client.copy_succeeds := fun _ _ => true |};
     Driver.generate_local := fun prompt_text _ => results prompt_text |}.

Definition everything (path : string) : bool := true.

Definition no_prompts_file (path : string) : bool :=
  negb (String.eqb path "story/broll-prompts.md").

Definition no_workflow (path : string) : bool :=
  negb (String.eqb path Driver.workflow_path).

End Fixture.

(** * Properties *)

(** ** Dictionaries *)

Section DictFacts.
Context {V : Type}.
Implicit Types (d : Dict.t V) (k : string) (v : V).

Lemma dict_keys_set k v d :
  Dict.keys (Dict.set k v d) =
  if decide (k ∈ Dict.keys d) then Dict.keys d else Dict.keys d ++ [k].
Proof.
  unfold Dict.keys. induction d as [|[k' v'] d IH].
  - destruct (decide (k ∈ ([] : Dict.t V).*1)) as [Hin|_]; [|done].
    by apply elem_of_nil in Hin.
  - cbn [Dict.set]. destruct (decide (k = k')) as [->|Hne].
    + destruct (decide (k' ∈ ((k', v') :: d).*1)) as [_|Hnin]; [done|].
      exfalso. apply Hnin. cbn. apply elem_of_cons. by left.
    + cbn [fmap list_fmap fst]. change (list_fmap _ _ fst ?l) with (l.*1).
      rewrite IH.
      destruct (decide (k ∈ d.*1)) as [Hin|Hnin];
        destruct (decide (k ∈ k' :: d.*1)) as [Hin'|Hnin']; try done.
      * exfalso. apply Hnin'. apply elem_of_cons. by right.
      * apply elem_of_cons in Hin' as [?|?]; congruence.
Qed.

Lemma dict_elem_of_set k v d k' v' :
  (k', v') ∈ Dict.set k v d -> (k' = k /\ v' = v) \/ (k', v') ∈ d.
Proof.
  induction d as [|[k0 v0] d IH]; cbn [Dict.set].
  - intros Heq%list_elem_of_singleton. left. by injection Heq.
  - destruct (decide (k = k0)) as [->|Hne].
    + intros [Heq|Hin]%elem_of_cons.
      * left. by injection Heq.
      * right. apply elem_of_cons. by right.
    + intros [Heq|Hin]%elem_of_cons.
      * right. apply elem_of_cons. by left.
      * destruct (IH Hin) as [?|?]; [by left | right].
        apply elem_of_cons. by right.
Qed.

Lemma dict_get_set_eq k v d : Dict.get k (Dict.set k v d) = Some v.
Proof.
  induction d as [|[k0 v0] d IH]; simpl.
  - by rewrite decide_True.
  - destruct (decide (k = k0)) as [->|Hne]; simpl.
    + by rewrite decide_True.
    + by rewrite decide_False.
Qed.

Lemma dict_get_set_ne k k' v d :
  k <> k' -> Dict.get k' (Dict.set k v d) = Dict.get k' d.
Proof.
  intros Hne. induction d as [|[k0 v0] d IH]; simpl.
  - by rewrite decide_False.
  - destruct (decide (k = k0)) as [->|Hne0]; simpl.
    + by rewrite !decide_False.
    + destruct (decide (k' = k0)); [done | apply IH].
Qed.

End DictFacts.

(** ** The converter: link resolution *)

Section Resolution.
Variable w : Editor.workflow.
Implicit Types (m : gmap string Py.value) (x y : Editor.input_info)
  (ins : list Editor.input_info) (l : Editor.link_entry).

Lemma scan_links_first_match links lid nm m :
  Converter.scan_links links lid nm m =
  match Converter.first_match links lid with
  | Some l => <[nm := Converter.reference_of l]> m
  | None => m
  end.
Proof.
  induction links as [|l links IH]; cbn [Converter.scan_links Converter.first_match].
  - done.
  - destruct (decide (Some (Editor.link_id l) = lid)); [done | apply IH].
Qed.

Lemma first_match_elem links lid l :
  Converter.first_match links lid = Some l ->
  l ∈ links /\ Some (Editor.link_id l) = lid.
Proof.
  induction links as [|l0 links IH]; cbn [Converter.first_match]; [done|].
  destruct (decide (Some (Editor.link_id l0) = lid)) as [Heq|Hne].
  - intros [= ->]. split; [apply elem_of_cons; by left | done].
  - intros [Hin ?]%IH. split; [apply elem_of_cons; by right | done].
Qed.

Lemma first_match_none links lid :
  (forall l, l ∈ links -> Some (Editor.link_id l) <> lid) ->
  Converter.first_match links lid = None.
Proof.
  induction links as [|l0 links IH]; cbn [Converter.first_match]; [done|].
  intros H. rewrite decide_False.
  - apply IH. intros l Hl. apply H, elem_of_cons. by right.
  - apply H, elem_of_cons. by left.
Qed.

Lemma convert_input_resolved m x :
  Converter.convert_input w m x =
  match Converter.resolved w x with
  | Some l => <[Editor.name x := Converter.reference_of l]> m
  | None => m
  end.
Proof.
  unfold Converter.convert_input, Converter.resolved, Editor.link_list.
  destruct (Editor.link x) as [lid|]; [|done].
  destruct (Editor.links w) as [links|]; [|done].
  apply scan_links_first_match.
Qed.

Lemma resolved_elem x l :
  Converter.resolved w x = Some l -> l ∈ Editor.link_list w.
Proof.
  unfold Converter.resolved. destruct (Editor.link x); [|done].
  by intros [? _]%first_match_elem.
Qed.

Lemma fold_inputs_untouched ins m nm :
  (forall y, y ∈ ins -> Editor.name y = nm -> Converter.resolved w y = None) ->
  fold_left (Converter.convert_input w) ins m !! nm = m !! nm.
Proof.
  revert m. induction ins as [|x ins IH]; intros m H; cbn [fold_left]; [done|].
  rewrite IH.
  - rewrite convert_input_resolved.
    destruct (Converter.resolved w x) as [l|] eqn:Hx; [|done].
    apply lookup_insert_ne. intros Heq.
    specialize (H x). rewrite Hx in H.
    discriminate H; [apply elem_of_cons; by left | done].
  - intros y Hy. apply H, elem_of_cons. by right.
Qed.

Lemma fold_inputs_skip ins1 x ins2 m :
  Converter.resolved w x = None ->
  fold_left (Converter.convert_input w) (ins1 ++ x :: ins2) m =
  fold_left (Converter.convert_input w) (ins1 ++ ins2) m.
Proof.
  intros Hx. rewrite !fold_left_app. cbn [fold_left].
  by rewrite (convert_input_resolved _ x), Hx.
Qed.

Lemma fold_inputs_last ins1 x ins2 m l :
  Converter.resolved w x = Some l ->
  (forall y, y ∈ ins2 -> Editor.name y = Editor.name x ->
     Converter.resolved w y = None) ->
  fold_left (Converter.convert_input w) (ins1 ++ x :: ins2) m !! Editor.name x
  = Some (Converter.reference_of l).
Proof.
  intros Hx Hlater. rewrite fold_left_app. cbn [fold_left].
  rewrite fold_inputs_untouched by done.
  rewrite convert_input_resolved, Hx. apply lookup_insert_eq.
Qed.

Lemma fold_inputs_origin ins m nm v :
  fold_left (Converter.convert_input w) ins m !! nm = Some v ->
  m !! nm = Some v \/
  exists l, l ∈ Editor.link_list w /\ v = Converter.reference_of l.
Proof.
  revert m. induction ins as [|x ins IH]; intros m; cbn [fold_left]; [by left|].
  intros [Hm|Hl]%IH; [|by right].
  rewrite convert_input_resolved in Hm.
  destruct (Converter.resolved w x) as [l|] eqn:Hx; [|by left].
  apply lookup_insert_Some in Hm as [[_ <-]|[_ Hm]]; [|by left].
  right. exists l. split; [by eapply resolved_elem | done].
Qed.

End Resolution.

(** The last element of a list that satisfies a decidable property. *)
Lemma last_such {A : Type} (P : A -> Prop) `{!forall a, Decision (P a)}
    (xs : list A) :
  Exists P xs ->
  exists xs1 y xs2, xs = xs1 ++ y :: xs2 /\ P y /\ Forall (fun z => ~ P z) xs2.
Proof.
  induction xs as [|a xs IH]; [by intros ?%Exists_nil|].
  intros Hex.
  destruct (decide (Exists P xs)) as [Hex'|Hnex].
  - destruct (IH Hex') as (xs1 & y & xs2 & -> & Hy & Hrest).
    exists (a :: xs1), y, xs2. by split.
  - apply Exists_cons in Hex as [HP|?]; [|done].
    exists [], a, xs. split; [done|]. split; [done|].
    by apply Forall_Exists_neg.
Qed.

(** ** The converter: nodes and graphs *)

Lemma convert_node_inv w n a :
  Converter.convert_node w n = Py.Ok a ->
  exists m0, Converter.convert_widgets n = Py.Ok m0 /\
    a = {| Api.class_type := Editor.type n;
           Api.inputs := fold_left (Converter.convert_input w) (Editor.input_list n) m0;
           Api.meta_title := Editor.title n |}.
Proof.
  unfold Converter.convert_node, Editor.input_list.
  destruct (Converter.convert_widgets n) as [m0|e]; cbn [Py.bind]; [|done].
  intros [= <-]. exists m0. split; [done|].
  by destruct (Editor.inputs n).
Qed.

Lemma convert_node_ok w n :
  Py.is_ok (Converter.convert_node w n) = Py.is_ok (Converter.convert_widgets n).
Proof.
  unfold Converter.convert_node.
  by destruct (Converter.convert_widgets n).
Qed.

Lemma convert_node_links w w' n :
  Editor.links w = Editor.links w' ->
  Converter.convert_node w n = Converter.convert_node w' n.
Proof.
  intros Hl. unfold Converter.convert_node.
  destruct (Converter.convert_widgets n) as [m0|e]; cbn [Py.bind]; [|done].
  destruct (Editor.inputs n) as [ins|]; [|done].
  do 2 f_equal. revert m0. induction ins as [|x ins IH]; intros m0; [done|].
  cbn [fold_left]. rewrite IH. f_equal.
  unfold Converter.convert_input. by rewrite Hl.
Qed.

Lemma convert_widgets_with_inputs ins n :
  Converter.convert_widgets (Editor.with_inputs ins n) = Converter.convert_widgets n.
Proof. reflexivity. Qed.

Lemma convert_widgets_lookup n m0 nm v :
  Converter.convert_widgets n = Py.Ok m0 -> m0 !! nm = Some v ->
  Editor.type n = "CLIPTextEncode" /\ nm = "text" /\
  exists wv, Editor.widgets_values n = Some (v :: wv).
Proof.
  unfold Converter.convert_widgets.
  destruct (Editor.widgets_values n) as [[|v0 wv]|];
    destruct (decide (Editor.type n = "CLIPTextEncode")) as [Ht|Ht];
    intros [= <-]; try by rewrite lookup_empty.
  intros [[<- <-]|[_ Hm]]%lookup_insert_Some; [eauto|].
  by rewrite lookup_empty in Hm.
Qed.

Lemma convert_nodes_ok w ns d :
  Py.is_ok (Converter.convert_nodes w ns d) =
  forallb (fun n => Py.is_ok (Converter.convert_widgets n)) ns.
Proof.
  revert d. induction ns as [|n ns IH]; intros d; cbn [Converter.convert_nodes forallb]; [done|].
  rewrite <- (convert_node_ok w n).
  destruct (Converter.convert_node w n) as [a|e]; cbn [Py.bind Py.is_ok]; [apply IH | done].
Qed.

Lemma convert_nodes_keys w ns d g k :
  Converter.convert_nodes w ns d = Py.Ok g ->
  k ∈ Dict.keys g <->
  k ∈ Dict.keys d \/ exists n, n ∈ ns /\ k = Py.str (Editor.id n).
Proof.
  revert d. induction ns as [|n ns IH]; intros d; cbn [Converter.convert_nodes].
  - intros [= <-]. split; [by left|].
    intros [?|(n & Hn & _)]; [done | by apply elem_of_nil in Hn].
  - destruct (Converter.convert_node w n) as [a|e]; cbn [Py.bind]; [|done].
    intros Hg. rewrite (IH _ Hg), dict_keys_set.
    split.
    + intros [Hk|(n' & Hn' & ->)].
      * destruct (decide (Py.str (Editor.id n) ∈ Dict.keys d)); [by left|].
        apply elem_of_app in Hk as [?|Hk]; [by left|].
        apply list_elem_of_singleton in Hk as ->.
        right. exists n. split; [apply elem_of_cons; by left | done].
      * right. exists n'. split; [apply elem_of_cons; by right | done].
    + intros [Hk|(n' & [->|Hn']%elem_of_cons & ->)].
      * left. destruct (decide (Py.str (Editor.id n) ∈ Dict.keys d)); [done|].
        apply elem_of_app. by left.
      * left. destruct (decide (Py.str (Editor.id n) ∈ Dict.keys d)); [done|].
        apply elem_of_app. right. by apply list_elem_of_singleton.
      * right. eauto.
Qed.

Lemma convert_nodes_entries w ns d g k a :
  Converter.convert_nodes w ns d = Py.Ok g ->
  (k, a) ∈ g ->
  (k, a) ∈ d \/
  exists n, n ∈ ns /\ k = Py.str (Editor.id n) /\ Converter.convert_node w n = Py.Ok a.
Proof.
  revert d. induction ns as [|n ns IH]; intros d; cbn [Converter.convert_nodes].
  - intros [= <-]. by left.
  - destruct (Converter.convert_node w n) as [a0|e] eqn:Hn; cbn [Py.bind]; [|done].
    intros Hg Hin. destruct (IH _ Hg Hin) as [Hd|(n' & Hn' & ? & ?)].
    + apply dict_elem_of_set in Hd as [[-> ->]|Hd]; [|by left].
      right. exists n. split; [apply elem_of_cons; by left | done].
    + right. exists n'. split; [apply elem_of_cons; by right | done].
Qed.

Lemma convert_nodes_keys_fresh w ns d g :
  Converter.convert_nodes w ns d = Py.Ok g ->
  NoDup (Dict.keys d ++ ((fun n => Py.str (Editor.id n)) <$> ns)) ->
  Dict.keys g = Dict.keys d ++ ((fun n => Py.str (Editor.id n)) <$> ns).
Proof.
  revert d. induction ns as [|n ns IH]; intros d; cbn [Converter.convert_nodes].
  - intros [= <-] _. by rewrite app_nil_r.
  - destruct (Converter.convert_node w n) as [a|e]; cbn [Py.bind]; [|done].
    intros Hg Hnd. cbn [fmap list_fmap] in *.
    assert (Hfresh : Py.str (Editor.id n) ∉ Dict.keys d).
    { apply NoDup_app in Hnd as (_ & Hnd & _). intros Hin.
      apply (Hnd _ Hin), elem_of_cons. by left. }
    assert (Hk : Dict.keys (Dict.set (Py.str (Editor.id n)) a d)
                 = Dict.keys d ++ [Py.str (Editor.id n)]).
    { rewrite dict_keys_set. by rewrite decide_False. }
    rewrite (IH _ Hg); rewrite Hk, <- app_assoc; done.
Qed.

Lemma convert_nodes_get w ns d g k :
  Converter.convert_nodes w ns d = Py.Ok g ->
  (forall n, n ∈ ns -> Py.str (Editor.id n) <> k) ->
  Dict.get k g = Dict.get k d.
Proof.
  revert d. induction ns as [|n ns IH]; intros d; cbn [Converter.convert_nodes].
  - by intros [= <-].
  - destruct (Converter.convert_node w n) as [a|e]; cbn [Py.bind]; [|done].
    intros Hg Hne. rewrite (IH _ Hg).
    + apply dict_get_set_ne, Hne, elem_of_cons. by left.
    + intros n' Hn'. apply Hne, elem_of_cons. by right.
Qed.

Lemma convert_nodes_app w ns1 ns2 d g :
  Converter.convert_nodes w (ns1 ++ ns2) d = Py.Ok g ->
  exists d1, Converter.convert_nodes w ns1 d = Py.Ok d1 /\
             Converter.convert_nodes w ns2 d1 = Py.Ok g.
Proof.
  revert d. induction ns1 as [|n ns1 IH]; intros d; cbn [app Converter.convert_nodes].
  - intros Hg. by exists d.
  - destruct (Converter.convert_node w n) as [a|e]; cbn [Py.bind]; [apply IH | done].
Qed.

Lemma convert_nodes_pointwise w w' ns ns' d :
  Forall2 (fun n n' => Editor.id n = Editor.id n' /\
             Converter.convert_node w n = Converter.convert_node w' n') ns ns' ->
  Converter.convert_nodes w ns d = Converter.convert_nodes w' ns' d.
Proof.
  intros H. revert d. induction H as [|n n' ns ns' [Hid Hn] _ IH]; intros d; [done|].
  cbn [Converter.convert_nodes]. rewrite Hn, Hid.
  destruct (Converter.convert_node w' n'); cbn [Py.bind]; [apply IH | done].
Qed.

Lemma str_inj : Inj (=) (=) Py.str.
Proof. unfold Py.str. apply _. Qed.

(** ** The converter: the claims *)

(** C1.  For every well-formed editor graph (every entry of the link table
    starts at a node of the graph, widget values are literals), every input
    of every node of the converted graph that is a reference
    [[source_node_id, source_output_slot]] has a [source_node_id] that is a
    key of the converted graph: there is no dangling reference. *)
Theorem convert_no_dangling_references (w : Editor.workflow) (g : Api.workflow) :
  Editor.well_formed w ->
  Converter.convert_workflow_to_api w = Py.Ok g ->
  Api.no_dangling g.
Proof.
  intros [Hlinks Hwidgets] Hg k a nm src slot Hin Hlook.
  unfold Converter.convert_workflow_to_api, Editor.node_list in *.
  destruct (Editor.nodes w) as [ns|] eqn:Hns; cbn [default] in *.
  2:{ injection Hg as <-. by apply elem_of_nil in Hin. }
  destruct (convert_nodes_entries _ _ _ _ _ _ Hg Hin)
    as [Hnil|(n & Hn & -> & Hconv)]; [by apply elem_of_nil in Hnil|].
  apply convert_node_inv in Hconv as (m0 & Hm0 & ->). cbn [Api.inputs] in Hlook.
  apply fold_inputs_origin in Hlook as [Hlit|(l & Hl & Href)].
  - destruct (convert_widgets_lookup _ _ _ _ Hm0 Hlit) as (_ & _ & wv & Hwv).
    rewrite Forall_forall in Hwidgets. specialize (Hwidgets n Hn).
    rewrite Hwv in Hwidgets. cbn [default] in Hwidgets.
    by apply Forall_cons in Hwidgets as [? _].
  - injection Href as ->.
    rewrite Forall_forall in Hlinks.
    apply Hlinks, Exists_exists in Hl as (n' & Hn' & Hid).
    apply (convert_nodes_keys _ _ _ _ _ Hg). right. exists n'. by rewrite Hid.
Qed.

(** C6.  For every editor graph whose node ids are pairwise distinct, the
    converted graph has exactly one key per node, the string form of its id
    (in the order of the nodes), hence as many keys as the graph has nodes. *)
Theorem convert_one_key_per_node (w : Editor.workflow) (g : Api.workflow) :
  NoDup (Editor.id <$> Editor.node_list w) ->
  Converter.convert_workflow_to_api w = Py.Ok g ->
  Dict.keys g = (fun n => Py.str (Editor.id n)) <$> Editor.node_list w
  /\ NoDup (Dict.keys g)
  /\ length (Dict.keys g) = length (Editor.node_list w).
Proof.
  intros Hnd Hg.
  assert (Hnd' : NoDup ((fun n => Py.str (Editor.id n)) <$> Editor.node_list w)).
  { rewrite (list_fmap_compose Editor.id Py.str).
    apply (NoDup_fmap_2 _), Hnd. }
  assert (Hkeys : Dict.keys g = (fun n => Py.str (Editor.id n)) <$> Editor.node_list w).
  { unfold Converter.convert_workflow_to_api, Editor.node_list in *.
    destruct (Editor.nodes w) as [ns|]; cbn [default] in *.
    - by apply (convert_nodes_keys_fresh _ _ [] _ Hg).
    - by injection Hg as <-. }
  rewrite Hkeys. split; [done|]. split; [done|]. apply length_fmap.
Qed.

(** C7.  When an input slot of a node carries a link id (7 in the claim) and
    the first entry of the link table with that id has source [s] and slot
    [o] (12 and 0 in the claim), the converted node has the reference
    [[str(s), o]] under the name of the slot.  The slot is the one its name
    designates (no later slot of the node with that name resolves) and the
    node is the one its id designates (no later node has the same id). *)
Theorem convert_resolves_link (w : Editor.workflow) (g : Api.workflow)
    (ns1 ns2 : list Editor.node) (n : Editor.node)
    (ins1 ins2 : list Editor.input_info) (x : Editor.input_info)
    (lid : Z) (l : Editor.link_entry) :
  Editor.nodes w = Some (ns1 ++ n :: ns2) ->
  (forall n', n' ∈ ns2 -> Editor.id n' <> Editor.id n) ->
  Editor.inputs n = Some (ins1 ++ x :: ins2) ->
  Editor.link x = Some (Some lid) ->
  Converter.first_match (Editor.link_list w) (Some lid) = Some l ->
  (forall y, y ∈ ins2 -> Editor.name y = Editor.name x ->
     Converter.resolved w y = None) ->
  Converter.convert_workflow_to_api w = Py.Ok g ->
  exists a, Dict.get (Py.str (Editor.id n)) g = Some a /\
    Api.inputs a !! Editor.name x
    = Some (Api.reference (Py.str (Editor.source_node l)) (Editor.source_slot l)).
Proof.
  intros Hns Hlast Hins Hlink Hfirst Hlater Hg.
  unfold Converter.convert_workflow_to_api in Hg. rewrite Hns in Hg.
  apply convert_nodes_app in Hg as (d1 & _ & Hg).
  cbn [Converter.convert_nodes] in Hg.
  destruct (Converter.convert_node w n) as [a|e] eqn:Hn; cbn [Py.bind] in Hg; [|done].
  exists a. split.
  - rewrite (convert_nodes_get _ _ _ _ _ Hg).
    + apply dict_get_set_eq.
    + intros n' Hn' Heq. by apply (Hlast n' Hn'), str_inj.
  - apply convert_node_inv in Hn as (m0 & _ & ->). cbn [Api.inputs].
    unfold Editor.input_list. rewrite Hins. cbn [default].
    apply (fold_inputs_last w ins1 x ins2 m0 l); [|done].
    unfold Converter.resolved. by rewrite Hlink.
Qed.

(** C8, as amended.  A node of type [CLIPTextEncode] whose [widgets_values]
    starts with a value [v] (["hello"] in the claim) converts to a node whose
    input [text] is [v], provided no input slot named [text] of the node
    resolves in the link table. *)
Theorem text_widget_becomes_text_input (w : Editor.workflow) (n : Editor.node)
    (v : Py.value) (wv : list Py.value) :
  Editor.type n = "CLIPTextEncode" ->
  Editor.widgets_values n = Some (v :: wv) ->
  (forall y, y ∈ Editor.input_list n -> Editor.name y = "text" ->
     Converter.resolved w y = None) ->
  exists a, Converter.convert_node w n = Py.Ok a /\
            Api.inputs a !! "text" = Some v.
Proof.
  intros Ht Hwv Hfree.
  assert (Hm0 : Converter.convert_widgets n = Py.Ok (<["text" := v]> ∅)).
  { unfold Converter.convert_widgets. rewrite Hwv. by rewrite decide_True. }
  destruct (Converter.convert_node w n) as [a|e] eqn:Hn.
  - exists a. split; [done|].
    apply convert_node_inv in Hn as (m0 & Hm0' & ->).
    rewrite Hm0 in Hm0'. injection Hm0' as <-. cbn [Api.inputs].
    rewrite fold_inputs_untouched by done. apply lookup_insert_eq.
  - pose proof (convert_node_ok w n) as Hok. by rewrite Hn, Hm0 in Hok.
Qed.

(** C9, as amended.  An input slot whose link id has no entry in the link
    table is skipped: the graph converts exactly as the graph without that
    slot does, whether the conversion succeeds depends on the widgets of the
    nodes alone, and the converted node has no entry under the name of the
    slot unless something else puts one there (another slot of that name
    that resolves, or the text widget of a [CLIPTextEncode] node). *)
Theorem unresolved_link_is_skipped (w : Editor.workflow)
    (ns1 ns2 : list Editor.node) (n : Editor.node)
    (ins1 ins2 : list Editor.input_info) (x : Editor.input_info) (lid : Z) :
  Editor.nodes w = Some (ns1 ++ n :: ns2) ->
  Editor.inputs n = Some (ins1 ++ x :: ins2) ->
  Editor.link x = Some (Some lid) ->
  (forall l, l ∈ Editor.link_list w -> Editor.link_id l <> lid) ->
  Converter.convert_workflow_to_api w
  = Converter.convert_workflow_to_api
      (Editor.with_nodes (ns1 ++ Editor.with_inputs (ins1 ++ ins2) n :: ns2) w)
  /\ Py.is_ok (Converter.convert_workflow_to_api w)
     = forallb (fun n' => Py.is_ok (Converter.convert_widgets n'))
               (Editor.node_list w)
  /\ (forall a,
        Converter.convert_node w n = Py.Ok a ->
        (forall y, y ∈ ins1 ++ ins2 -> Editor.name y = Editor.name x ->
           Converter.resolved w y = None) ->
        ~ (Editor.type n = "CLIPTextEncode"
           /\ is_Some (Editor.widgets_values n)
           /\ Editor.name x = "text") ->
        Api.inputs a !! Editor.name x = None).
Proof.
  intros Hns Hins Hlink Hnone.
  assert (Hx : Converter.resolved w x = None).
  { unfold Converter.resolved. rewrite Hlink. apply first_match_none.
    intros l Hl [= Heq]. by apply (Hnone l Hl). }
  split; [|split].
  - unfold Converter.convert_workflow_to_api, Editor.with_nodes.
    rewrite Hns. cbn [Editor.nodes].
    assert (Hsame : forall ns : list Editor.node,
              Forall2 (fun n1 n2 => Editor.id n1 = Editor.id n2 /\
                 Converter.convert_node w n1
                 = Converter.convert_node
                     {| Editor.nodes := Some (ns1 ++ Editor.with_inputs (ins1 ++ ins2) n :: ns2);
                        Editor.links := Editor.links w |} n2) ns ns).
    { intros ns. apply Forall_Forall2_diag, Forall_forall. intros n' _.
      split; [done|]. by apply convert_node_links. }
    apply convert_nodes_pointwise, Forall2_app; [apply Hsame|].
    constructor; [|apply Hsame]. split; [done|].
    transitivity (Converter.convert_node w (Editor.with_inputs (ins1 ++ ins2) n));
      [|by apply convert_node_links].
    unfold Converter.convert_node. rewrite convert_widgets_with_inputs.
    destruct (Converter.convert_widgets n) as [m0|e]; cbn [Py.bind]; [|done].
    cbn [Editor.with_inputs Editor.inputs Editor.type Editor.title].
    rewrite Hins. by rewrite fold_inputs_skip.
  - unfold Converter.convert_workflow_to_api, Editor.node_list.
    destruct (Editor.nodes w); [apply convert_nodes_ok | done].
  - intros a Ha Hothers Hwidget.
    apply convert_node_inv in Ha as (m0 & Hm0 & ->). cbn [Api.inputs].
    unfold Editor.input_list. rewrite Hins. cbn [default].
    rewrite fold_inputs_untouched.
    + destruct (m0 !! Editor.name x) as [v|] eqn:Hv; [|done].
      destruct (convert_widgets_lookup _ _ _ _ Hm0 Hv) as (? & ? & wv & Hwv).
      destruct Hwidget. rewrite Hwv. by repeat split.
    + intros y [Hy|[->|Hy]%elem_of_cons]%elem_of_app Hname; [|done|].
      * apply Hothers; [apply elem_of_app; by left | done].
      * apply Hothers; [apply elem_of_app; by right | done].
Qed.

(** C10.  In a [CLIPTextEncode] node whose [widgets_values] starts with [v],
    when an input slot named [text] resolves in the link table, the converted
    node's input [text] is the reference of the last such slot, not the
    widget literal [v]. *)
Theorem link_overwrites_widget_literal (w : Editor.workflow) (n : Editor.node)
    (v : Py.value) (wv : list Py.value) (x : Editor.input_info) :
  Editor.type n = "CLIPTextEncode" ->
  Editor.widgets_values n = Some (v :: wv) ->
  x ∈ Editor.input_list n ->
  Editor.name x = "text" ->
  is_Some (Converter.resolved w x) ->
  exists a ins1 y ins2 l,
    Converter.convert_node w n = Py.Ok a
    /\ Editor.input_list n = ins1 ++ y :: ins2
    /\ Editor.name y = "text"
    /\ Converter.resolved w y = Some l
    /\ Forall (fun z => ~ (Editor.name z = "text" /\ is_Some (Converter.resolved w z))) ins2
    /\ Api.inputs a !! "text" = Some (Converter.reference_of l)
    /\ (Py.scalar v = true -> Api.inputs a !! "text" <> Some v).
Proof.
  intros Ht Hwv Hx Hname Hres.
  destruct (last_such
              (fun z => Editor.name z = "text" /\ is_Some (Converter.resolved w z))
              (Editor.input_list n))
    as (ins1 & y & ins2 & Hsplit & [Hy [l Hl]] & Hrest).
  { apply Exists_exists. eauto. }
  assert (Hm0 : Converter.convert_widgets n = Py.Ok (<["text" := v]> ∅)).
  { unfold Converter.convert_widgets. rewrite Hwv. by rewrite decide_True. }
  destruct (Converter.convert_node w n) as [a|e] eqn:Hn.
  2:{ pose proof (convert_node_ok w n) as Hok. by rewrite Hn, Hm0 in Hok. }
  exists a, ins1, y, ins2, l.
  assert (Hlook : Api.inputs a !! "text" = Some (Converter.reference_of l)).
  { apply convert_node_inv in Hn as (m0 & _ & ->). cbn [Api.inputs].
    rewrite Hsplit, <- Hy. apply fold_inputs_last; [done|].
    intros z Hz Hnz. rewrite Forall_forall in Hrest.
    destruct (Converter.resolved w z) eqn:Hrz; [|done].
    destruct (Hrest z Hz). split; [congruence | by rewrite Hrz]. }
  repeat (split; [done|]).
  intros Hscalar. rewrite Hlook. intros [= <-]. done.
Qed.

(** ** The converter on the sample graphs *)

Lemma plain_well_formed : Editor.well_formed Sample.plain.
Proof. apply (bool_decide_unpack _). by vm_compute. Qed.

(** The converter does not check that the source of a link is a node of the
    graph: on a table that is not well formed it writes the reference as it
    finds it. *)
Lemma dangling_reference_kept :
  ~ Editor.well_formed Sample.dangling
  /\ exists g a,
       Converter.convert_workflow_to_api Sample.dangling = Py.Ok g
       /\ Dict.get "6" g = Some a
       /\ Api.inputs a !! "clip" = Some (Api.reference "99" 0)
       /\ Dict.get "99" g = None.
Proof.
  split.
  - apply (bool_decide_eq_false_1 (Editor.well_formed Sample.dangling)).
    by vm_compute.
  - eexists _, _. repeat split; vm_compute; reflexivity.
Qed.

Lemma plain_converts :
  Converter.convert_workflow_to_api Sample.plain = Py.Ok Sample.plain_api.
Proof. vm_compute. reflexivity. Qed.

(** C1 on [Sample.plain]. *)
Lemma convert_no_dangling_references_witness : Api.no_dangling Sample.plain_api.
Proof.
  apply (convert_no_dangling_references Sample.plain).
  - exact plain_well_formed.
  - exact plain_converts.
Defined.

(** C6 on [Sample.plain]: two nodes, the keys "12" and "6". *)
Lemma convert_one_key_per_node_witness :
  Dict.keys Sample.plain_api = ["12"; "6"]
  /\ length (Dict.keys Sample.plain_api) = 2.
Proof.
  destruct (convert_one_key_per_node Sample.plain Sample.plain_api)
    as (Hk & _ & Hlen).
  - apply (bool_decide_unpack _). by vm_compute.
  - exact plain_converts.
  - split; [exact Hk | exact Hlen].
Defined.

(** C7 on [Sample.plain]: slot [clip] carries link 7, the table has
    (7, 12, 0), the converted input is [["12", 0]]. *)
Lemma convert_resolves_link_witness :
  exists a, Dict.get "6" Sample.plain_api = Some a
    /\ Api.inputs a !! "clip" = Some (Api.reference "12" 0).
Proof.
  apply (convert_resolves_link Sample.plain Sample.plain_api
           [Sample.loader] [] (Sample.encoder [Sample.slot "clip" 7])
           [] [] (Sample.slot "clip" 7) 7 (Sample.edge 7 12 0)).
  - reflexivity.
  - intros n' Hn'. by apply elem_of_nil in Hn'.
  - reflexivity.
  - reflexivity.
  - reflexivity.
  - intros y Hy. by apply elem_of_nil in Hy.
  - exact plain_converts.
Defined.

(** C8, as amended, on the encoder of [Sample.plain]. *)
Lemma text_widget_becomes_text_input_witness :
  exists a, Converter.convert_node Sample.plain (Sample.encoder [Sample.slot "clip" 7])
            = Py.Ok a
            /\ Api.inputs a !! "text" = Some (Py.VStr "hello").
Proof.
  apply (text_widget_becomes_text_input Sample.plain
           (Sample.encoder [Sample.slot "clip" 7]) (Py.VStr "hello") []).
  - reflexivity.
  - reflexivity.
  - intros y Hy Hname. apply list_elem_of_singleton in Hy as ->. discriminate Hname.
Defined.

(** C8, as stated, fails on [Sample.collision]: the encoder has
    [widgets_values = ["hello"]], and its converted [text] input is the
    reference [["12", 0]]. *)
Lemma text_widget_overwritten_by_link :
  let n := Sample.encoder [Sample.slot "text" 7] in
  Editor.nodes Sample.collision = Some [Sample.loader; n]
  /\ Editor.type n = "CLIPTextEncode"
  /\ Editor.widgets_values n = Some [Py.VStr "hello"]
  /\ exists g a,
       Converter.convert_workflow_to_api Sample.collision = Py.Ok g
       /\ Converter.convert_node Sample.collision n = Py.Ok a
       /\ Dict.get (Py.str (Editor.id n)) g = Some a
       /\ Api.inputs a !! "text" = Some (Api.reference "12" 0)
       /\ Api.inputs a !! "text" <> Some (Py.VStr "hello").
Proof.
  cbv zeta. do 3 (split; [reflexivity|]).
  eexists _, _. split; [vm_compute; reflexivity|].
  split; [vm_compute; reflexivity|].
  split; [vm_compute; reflexivity|].
  split; [vm_compute; reflexivity|].
  vm_compute. discriminate.
Qed.

(** C9, as amended, on [Sample.unresolved]. *)
Lemma unresolved_link_is_skipped_witness :
  Converter.convert_workflow_to_api Sample.unresolved
  = Converter.convert_workflow_to_api Sample.unresolved_removed
  /\ Py.is_ok (Converter.convert_workflow_to_api Sample.unresolved) = true.
Proof.
  destruct (unresolved_link_is_skipped Sample.unresolved
              [Sample.loader] []
              (Sample.encoder [Sample.slot "text" 5; Sample.slot "clip" 7])
              [] [Sample.slot "clip" 7] (Sample.slot "text" 5) 5)
    as (Heq & Hok & _).
  - reflexivity.
  - reflexivity.
  - reflexivity.
  - intros l Hl. apply list_elem_of_singleton in Hl as ->. discriminate.
  - split; [exact Heq | exact Hok].
Defined.

(** C9, as stated, fails on [Sample.unresolved]: the slot [text] names link
    5, the table has no entry 5, and the converted node has an entry under
    [text], the widget literal. *)
Lemma unresolved_link_leaves_widget_entry :
  let x := Sample.slot "text" 5 in
  let n := Sample.encoder [x; Sample.slot "clip" 7] in
  Editor.nodes Sample.unresolved = Some [Sample.loader; n]
  /\ Editor.link x = Some (Some 5%Z)
  /\ Converter.first_match (Editor.link_list Sample.unresolved) (Some 5%Z) = None
  /\ exists g a,
       Converter.convert_workflow_to_api Sample.unresolved = Py.Ok g
       /\ Dict.get (Py.str (Editor.id n)) g = Some a
       /\ Api.inputs a !! Editor.name x = Some (Py.VStr "hello")
       /\ Api.inputs a !! Editor.name x <> None.
Proof.
  cbv zeta. do 3 (split; [reflexivity|]).
  eexists _, _. split; [vm_compute; reflexivity|].
  split; [vm_compute; reflexivity|].
  split; [vm_compute; reflexivity|].
  vm_compute. discriminate.
Qed.

(** C10 on the encoder of [Sample.collision]. *)
Lemma link_overwrites_widget_literal_witness :
  exists a, Converter.convert_node Sample.collision (Sample.encoder [Sample.slot "text" 7])
            = Py.Ok a
            /\ Api.inputs a !! "text" = Some (Api.reference "12" 0)
            /\ Api.inputs a !! "text" <> Some (Py.VStr "hello").
Proof.
  destruct (link_overwrites_widget_literal Sample.collision
              (Sample.encoder [Sample.slot "text" 7]) (Py.VStr "hello") []
              (Sample.slot "text" 7))
    as (a & ins1 & y & ins2 & l & Ha & _ & _ & _ & _ & _ & Hne).
  - reflexivity.
  - reflexivity.
  - apply list_elem_of_singleton. reflexivity.
  - reflexivity.
  - eexists. vm_compute. reflexivity.
  - exists a. split; [exact Ha|].
    assert (Hv : Py.Ok a = Converter.convert_node Sample.collision
                             (Sample.encoder [Sample.slot "text" 7])) by (symmetry; exact Ha).
    vm_compute in Hv. injection Hv as ->.
    split; [vm_compute; reflexivity | vm_compute; discriminate].
Defined.

(** ** Prompt injection *)

Lemma first_hit_exists {A : Type} (P : A -> bool) (xs : list A) :
  Exists (fun y => P y = true) xs ->
  exists xs1 x xs2, Selector.first_hit P xs xs1 x xs2.
Proof.
  unfold Selector.first_hit. induction xs as [|y xs IH]; [by intros ?%Exists_nil|].
  intros Hex. destruct (P y) eqn:Hy.
  - exists [], y, xs. by repeat split.
  - apply Exists_cons in Hex as [?|Hex]; [congruence|].
    destruct (IH Hex) as (xs1 & x & xs2 & -> & Hbefore & Hx).
    exists (y :: xs1), x, xs2. split; [done|]. split; [by constructor | done].
Qed.

Lemma update_positive_prompt_first text g g1 k a g2 :
  Selector.first_hit (fun kv => Selector.positive_api kv.2) g g1 (k, a) g2 ->
  Selector.update_positive_prompt text g = g1 ++ (k, Selector.set_text text a) :: g2.
Proof.
  intros (-> & Hbefore & Ha). induction Hbefore as [|[k' a'] g1 Hk' _ IH];
    cbn [app Selector.update_positive_prompt].
  - cbn in Ha. by rewrite Ha.
  - cbn in Hk'. by rewrite Hk', IH.
Qed.

Lemma inject_working_first text ns ns1 n ns2 :
  Selector.first_hit Selector.positive_editor ns ns1 n ns2 ->
  Selector.inject_working text ns
  = (ns1 ++ Selector.set_widgets text n :: ns2,
     Some (Py.lower (default EmptyString (Editor.title n)))).
Proof.
  intros (-> & Hbefore & Hn). induction Hbefore as [|n' ns1 Hn' _ IH];
    cbn [app Selector.inject_working].
  - by rewrite Hn.
  - by rewrite Hn', IH.
Qed.

Lemma inject_local_first text ns ns1 n ns2 :
  Selector.first_hit Selector.positive_editor ns ns1 n ns2 ->
  Selector.inject_local text ns
  = ns1 ++ Selector.set_widgets text n :: Selector.inject_local text ns2.
Proof.
  intros (-> & Hbefore & Hn). induction Hbefore as [|n' ns1 Hn' _ IH];
    cbn [app Selector.inject_local].
  - by rewrite Hn.
  - by rewrite Hn', IH.
Qed.

Lemma inject_local_lookup text ns i m :
  ns !! i = Some m ->
  Selector.inject_local text ns !! i
  = Some (if Selector.positive_editor m then Selector.set_widgets text m else m).
Proof.
  revert i. induction ns as [|n ns IH]; intros [|i]; cbn; try done.
  - by intros [= ->].
  - apply IH.
Qed.

Lemma inject_local_length text ns :
  length (Selector.inject_local text ns) = length ns.
Proof. induction ns as [|n ns IH]; cbn; [done | by rewrite IH]. Qed.

(** The title test is case-insensitive, and a node without a title passes. *)
Lemma lacks_negative_examples :
  Selector.lacks_negative (Some "CLIP Text Encode (Negative)") = false
  /\ Selector.lacks_negative (Some "NEGATIVE prompt") = false
  /\ Selector.lacks_negative (Some "my neGaTive") = false
  /\ Selector.lacks_negative (Some "CLIP Text Encode (Positive)") = true
  /\ Selector.lacks_negative (Some "negativ") = true
  /\ Selector.lacks_negative None = true.
Proof. repeat split; vm_compute; reflexivity. Qed.

(** C2, as amended.  A node is eligible when it is a [CLIPTextEncode] node
    whose title, lowered, lacks "negative" and, in the loops over the editor
    graph, when it also has a [widgets_values] key.  When the graph has an
    eligible node, the first one in iteration order is overwritten with the
    prompt and every node before it is left as it was; the loops of
    convert-workflow.py and generate-images-working.py change nothing after
    it either, and the loop of generate-images-local.py leaves every node
    that is not eligible as it was. *)
Theorem positive_prompt_selection (text : string) :
  (forall g : Api.workflow,
     Exists (fun kv => Selector.positive_api kv.2 = true) g ->
     exists g1 k a g2,
       Selector.first_hit (fun kv => Selector.positive_api kv.2) g g1 (k, a) g2
       /\ Selector.update_positive_prompt text g
          = g1 ++ (k, Selector.set_text text a) :: g2)
  /\ (forall ns : list Editor.node,
        Exists (fun n => Selector.positive_editor n = true) ns ->
        exists ns1 n ns2,
          Selector.first_hit Selector.positive_editor ns ns1 n ns2
          /\ (Selector.inject_working text ns).1
             = ns1 ++ Selector.set_widgets text n :: ns2
          /\ Selector.inject_local text ns
             = ns1 ++ Selector.set_widgets text n :: Selector.inject_local text ns2
          /\ length (Selector.inject_local text ns2) = length ns2
          /\ (forall i m, ns2 !! i = Some m ->
                Selector.positive_editor m = false ->
                Selector.inject_local text ns2 !! i = Some m)).
Proof.
  split.
  - intros g Hex.
    destruct (first_hit_exists (fun kv => Selector.positive_api kv.2) g Hex)
      as (g1 & [k a] & g2 & Hhit).
    exists g1, k, a, g2. split; [done|]. by apply update_positive_prompt_first.
  - intros ns Hex.
    destruct (first_hit_exists Selector.positive_editor ns Hex)
      as (ns1 & n & ns2 & Hhit).
    exists ns1, n, ns2. split; [done|].
    split; [by rewrite (inject_working_first _ _ _ _ _ Hhit)|].
    split; [by apply inject_local_first|].
    split; [apply inject_local_length|].
    intros i m Hm Hneg. rewrite (inject_local_lookup _ _ _ _ Hm). by rewrite Hneg.
Qed.

(** C2, as amended, on [Sample.negative_then_positive]. *)
Lemma positive_prompt_selection_witness :
  exists g1 k a g2,
    Selector.first_hit (fun kv => Selector.positive_api kv.2)
      Sample.negative_then_positive g1 (k, a) g2
    /\ Selector.update_positive_prompt "a new prompt" Sample.negative_then_positive
       = g1 ++ (k, Selector.set_text "a new prompt" a) :: g2.
Proof.
  destruct (positive_prompt_selection "a new prompt") as [Hapi _].
  apply (Hapi Sample.negative_then_positive).
  apply (bool_decide_unpack _). by vm_compute.
Defined.

(** C2, as stated, fails on the loop of generate-images-local.py (and on
    that of generate-images-working.py): the first text-encoding node whose
    title lacks "negative" has no [widgets_values] key, the loop passes over
    it and overwrites the next one. *)
Lemma first_positive_node_passed_over :
  let ns := [Sample.editor_bare; Sample.editor_positive] in
  Editor.type Sample.editor_bare = "CLIPTextEncode"
  /\ Selector.lacks_negative (Editor.title Sample.editor_bare) = true
  /\ Selector.inject_local "a new prompt" ns
     = [Sample.editor_bare; Selector.set_widgets "a new prompt" Sample.editor_positive]
  /\ (Selector.inject_working "a new prompt" ns).1
     = [Sample.editor_bare; Selector.set_widgets "a new prompt" Sample.editor_positive]
  /\ Selector.set_widgets "a new prompt" Sample.editor_positive <> Sample.editor_positive.
Proof.
  cbv zeta. split; [reflexivity|]. split; [vm_compute; reflexivity|].
  split; [vm_compute; reflexivity|]. split; [vm_compute; reflexivity|].
  vm_compute. discriminate.
Qed.

(** The example of the claim, on the API graph: the negative encoder comes
    first, the positive one is overwritten, nothing else changes. *)
Lemma negative_then_positive_api :
  Selector.update_positive_prompt "a beautiful test landscape" Sample.negative_then_positive
  = [("4", {| Api.class_type := "CheckpointLoaderSimple"; Api.inputs := ∅;
              Api.meta_title := Some "Load Checkpoint" |});
     ("7", Sample.api_encoder "CLIP Text Encode (Negative)" "blurry, low quality");
     ("6", Sample.api_encoder "CLIP Text Encode (Positive)" "a beautiful test landscape")].
Proof. vm_compute. reflexivity. Qed.

(** The same example on the editor graph, for both loops. *)
Lemma negative_then_positive_editor :
  let ns := [Sample.editor_negative; Sample.editor_positive] in
  let ns' := [Sample.editor_negative;
              Selector.set_widgets "a new prompt" Sample.editor_positive] in
  Selector.inject_local "a new prompt" ns = ns'
  /\ Selector.inject_working "a new prompt" ns
     = (ns', Some "clip text encode (positive)").
Proof. cbv zeta. split; vm_compute; reflexivity. Qed.

(** Without the [break], the loop of generate-images-local.py overwrites
    every eligible node, where that of generate-images-working.py stops at
    the first. *)
Lemma inject_local_overwrites_every_positive_node :
  let ns := [Sample.editor_positive; Sample.editor_untitled] in
  Selector.inject_local "a new prompt" ns
  = [Selector.set_widgets "a new prompt" Sample.editor_positive;
     Selector.set_widgets "a new prompt" Sample.editor_untitled]
  /\ (Selector.inject_working "a new prompt" ns).1
     = [Selector.set_widgets "a new prompt" Sample.editor_positive;
        Sample.editor_untitled].
Proof. cbv zeta. split; vm_compute; reflexivity. Qed.

(** ** The prompt parser *)

(** Every record carries the same episode number, that of the last episode
    heading of the whole document (1 without a heading), wherever its scene
    stands. *)
Lemma parse_episode_is_last_heading (content : string) (r : Parser.prompt_record) :
  r ∈ Parser.parse_broll_prompts content ->
  Parser.episode r
  = Parser.int (List.last (Parser.findall Parser.match_episode content) "1").
Proof.
  unfold Parser.parse_broll_prompts.
  intros ([scene_num prompt_text] & -> & _)%list_elem_of_fmap. reflexivity.
Qed.

(** One record per match of the scene pattern, in the order of the matches. *)
Lemma parse_scenes_in_order (content : string) :
  Parser.scene <$> Parser.parse_broll_prompts content
  = (fun g => Parser.int g.1) <$> Parser.findall Parser.match_scene content.
Proof.
  unfold Parser.parse_broll_prompts. rewrite <- list_fmap_compose.
  apply list_fmap_ext. by intros _ [scene_num prompt_text] _.
Qed.

(** C3 on the code: every record gets the number of the last episode
    heading of the whole document, not of the heading that precedes its
    scene.  With two episode headings the scene under the first one gets
    episode 2, where the reading announced by the comment in the loop gives
    it episode 1. *)
Theorem parse_takes_last_episode_heading :
  (forall content r,
     r ∈ Parser.parse_broll_prompts content ->
     Parser.episode r
     = Parser.int (List.last (Parser.findall Parser.match_episode content) "1"))
  /\ Parser.parse_broll_prompts Sample.two_episodes
     = [{| Parser.episode := 2; Parser.scene := 1; Parser.prompt := "first prompt" |};
        {| Parser.episode := 2; Parser.scene := 2; Parser.prompt := "second" |}]
  /\ Parser.parse_preceding_episode Sample.two_episodes
     = [{| Parser.episode := 1; Parser.scene := 1; Parser.prompt := "first prompt" |};
        {| Parser.episode := 2; Parser.scene := 2; Parser.prompt := "second" |}].
Proof.
  split; [exact parse_episode_is_last_heading|].
  split; vm_compute; reflexivity.
Qed.

(** A scene in front of the only episode heading gets the number of that
    heading, not the default 1. *)
Lemma parse_scene_before_heading :
  Parser.parse_broll_prompts Sample.scene_first
  = [{| Parser.episode := 2; Parser.scene := 4; Parser.prompt := "early" |};
     {| Parser.episode := 2; Parser.scene := 5; Parser.prompt := "late" |}].
Proof. vm_compute. reflexivity. Qed.

(** The example of the claim: two scenes under one heading "Episode 3" give
    two records with episode 3, in document order, with stripped prompts. *)
Lemma parse_one_episode :
  Parser.parse_broll_prompts Sample.one_episode
  = [{| Parser.episode := 3; Parser.scene := 1; Parser.prompt := "first prompt" |};
     {| Parser.episode := 3; Parser.scene := 2; Parser.prompt := "second" |}].
Proof. vm_compute. reflexivity. Qed.

(** With at most one episode heading in front of all the scenes the two
    readings cannot be told apart on the sample. *)
Lemma parse_one_episode_agrees :
  Parser.parse_broll_prompts Sample.one_episode
  = Parser.parse_preceding_episode Sample.one_episode.
Proof. vm_compute. reflexivity. Qed.

(** ** The submission and polling client *)

Lemma polls_app tr1 tr2 :
  Client.polls (tr1 ++ tr2) = Client.polls tr1 ++ Client.polls tr2.
Proof. apply List.filter_app. Qed.

Lemma polls_idle prompt_id n :
  length (Client.polls (Client.idle_polls prompt_id n)) = n.
Proof. induction n as [|n IH]; cbn; [done | by rewrite <- IH at 2]. Qed.

Lemma polls_inject prompt_text workflow :
  Client.polls (Client.inject prompt_text workflow).2 = [].
Proof.
  unfold Client.inject. destruct (Editor.nodes workflow) as [ns|]; [|done].
  destruct (Selector.inject_working prompt_text ns) as [ns' [title|]]; done.
Qed.

(** [n] polls from attempt [i] on that all find the job pending end in the
    code after the loop. *)
Lemma poll_pending w prompt_id output_path n i :
  (forall j, i <= j < i + n ->
     Client.pending prompt_id (Client.get w j prompt_id) = true) ->
  Client.poll w prompt_id output_path i n
  = (Client.Returns false,
     Client.idle_polls prompt_id n ++ [Client.Prints Client.TimedOutWaiting]).
Proof.
  revert i. induction n as [|n IH]; intros i Hpending; [done|].
  cbn [Client.poll Client.idle_polls].
  rewrite (IH (S i)) by (intros j Hj; apply Hpending; lia).
  specialize (Hpending i ltac:(lia)). unfold Client.pending in Hpending.
  destruct (Client.get w i prompt_id) as [|status_code body]; [done|].
  destruct (decide (status_code = 200%Z)); [|done].
  destruct body as [history|]; [|done].
  by destruct (Client.reported_outputs prompt_id history).
Qed.

Lemma exhausted_trace_polls updated payload prompt_id n :
  Client.polls updated = [] ->
  length (Client.polls
            (updated
             ++ [Client.Prints Client.Submitting; Client.Posts payload;
                 Client.Prints (Client.Submitted prompt_id)]
             ++ Client.idle_polls prompt_id n
             ++ [Client.Prints Client.TimedOutWaiting])) = n.
Proof.
  intros Hupdated. rewrite !polls_app, Hupdated.
  cbn [Client.polls List.filter Client.is_get app].
  rewrite length_app, polls_idle. cbn [length]. apply Nat.add_0_r.
Qed.

Lemma exhausted_trace_last updated payload prompt_id n d :
  List.last (updated
             ++ [Client.Prints Client.Submitting; Client.Posts payload;
                 Client.Prints (Client.Submitted prompt_id)]
             ++ Client.idle_polls prompt_id n
             ++ [Client.Prints Client.TimedOutWaiting]) d
  = Client.Prints Client.TimedOutWaiting.
Proof. rewrite !app_assoc. apply List.last_last. Qed.

Lemma rejected_trace_last updated payload status_code text d :
  List.last (updated
             ++ [Client.Prints Client.Submitting; Client.Posts payload;
                 Client.Prints (Client.FailedToSubmit status_code text)]) d
  = Client.Prints (Client.FailedToSubmit status_code text).
Proof.
  change [?a; ?b; ?c] with ([a; b] ++ [c]). rewrite !app_assoc.
  apply List.last_last.
Qed.

(** A run whose submission is answered with a status other than 200. *)
Lemma generate_image_rejected (w : Client.world)
    (prompt_text output_path : string) (workflow : Editor.workflow)
    (status_code : Z) (text : string) (result : option (option string)) :
  Client.workflow_file w = Some workflow ->
  Client.post w (Client.inject prompt_text workflow).1
  = Client.PostResponse status_code text result ->
  status_code <> 200%Z ->
  Client.generate_image w prompt_text output_path
  = (false,
     (Client.inject prompt_text workflow).2
     ++ [Client.Prints Client.Submitting;
         Client.Posts (Client.inject prompt_text workflow).1;
         Client.Prints (Client.FailedToSubmit status_code text)]).
Proof.
  intros Hfile Hpost Hstatus.
  unfold Client.generate_image, Client.try_generate_image. rewrite Hfile.
  destruct (Client.inject prompt_text workflow) as [workflow' updated].
  cbn [fst snd] in *. rewrite Hpost. rewrite decide_False by done.
  by rewrite <- app_assoc.
Qed.

(** A run whose submission is accepted and whose polls all find the job
    pending. *)
Lemma generate_image_exhausted (w : Client.world)
    (prompt_text output_path : string) (workflow : Editor.workflow)
    (text : string) (prompt_id : option string) :
  Client.workflow_file w = Some workflow ->
  Client.post w (Client.inject prompt_text workflow).1
  = Client.PostResponse 200 text (Some prompt_id) ->
  (forall i, i < Client.max_attempts ->
     Client.pending prompt_id (Client.get w i prompt_id) = true) ->
  Client.generate_image w prompt_text output_path
  = (false,
     (Client.inject prompt_text workflow).2
     ++ [Client.Prints Client.Submitting;
         Client.Posts (Client.inject prompt_text workflow).1;
         Client.Prints (Client.Submitted prompt_id)]
     ++ Client.idle_polls prompt_id Client.max_attempts
     ++ [Client.Prints Client.TimedOutWaiting]).
Proof.
  intros Hfile Hpost Hpending.
  unfold Client.generate_image, Client.try_generate_image. rewrite Hfile.
  destruct (Client.inject prompt_text workflow) as [workflow' updated].
  cbn [fst snd] in *. rewrite Hpost. rewrite decide_True by done.
  rewrite poll_pending by (intros j Hj; apply Hpending; lia).
  by rewrite <- app_assoc.
Qed.

(** C5, as amended.  When the submission is answered with a status other
    than 200, [generate_image] prints the failure line made of the status
    code and the response body as received, returns [False], and makes no
    poll request.  The body is in the printed line; the value returned is
    the bare [False]. *)
Theorem rejected_submission_is_reported (w : Client.world)
    (prompt_text output_path : string) (workflow : Editor.workflow)
    (status_code : Z) (text : string) (result : option (option string)) :
  Client.workflow_file w = Some workflow ->
  Client.post w (Client.inject prompt_text workflow).1
  = Client.PostResponse status_code text result ->
  status_code <> 200%Z ->
  Client.generate_image w prompt_text output_path
  = (false,
     (Client.inject prompt_text workflow).2
     ++ [Client.Prints Client.Submitting;
         Client.Posts (Client.inject prompt_text workflow).1;
         Client.Prints (Client.FailedToSubmit status_code text)])
  /\ Client.polls (Client.generate_image w prompt_text output_path).2 = [].
Proof.
  intros Hfile Hpost Hstatus.
  rewrite (generate_image_rejected _ _ _ _ _ _ _ Hfile Hpost Hstatus).
  split; [done|]. cbn [snd]. by rewrite polls_app, polls_inject.
Qed.

(** C4, as amended.  When the submission is accepted and each of the 60
    polls is answered without reporting outputs, [generate_image] makes
    exactly 60 poll requests, prints the timeout line last and returns
    [False]: the value a rejected submission returns as well.  The two
    outcomes differ in the line printed last, not in the value returned. *)
Theorem exhausted_budget_times_out (w : Client.world)
    (prompt_text output_path : string) (workflow : Editor.workflow)
    (text : string) (prompt_id : option string) :
  Client.workflow_file w = Some workflow ->
  Client.post w (Client.inject prompt_text workflow).1
  = Client.PostResponse 200 text (Some prompt_id) ->
  (forall i, i < Client.max_attempts ->
     Client.pending prompt_id (Client.get w i prompt_id) = true) ->
  Client.generate_image w prompt_text output_path
  = (false,
     (Client.inject prompt_text workflow).2
     ++ [Client.Prints Client.Submitting;
         Client.Posts (Client.inject prompt_text workflow).1;
         Client.Prints (Client.Submitted prompt_id)]
     ++ Client.idle_polls prompt_id Client.max_attempts
     ++ [Client.Prints Client.TimedOutWaiting])
  /\ length (Client.polls (Client.generate_image w prompt_text output_path).2)
     = Client.max_attempts
  /\ (forall w' prompt_text' output_path' workflow' status_code' text' result',
        Client.workflow_file w' = Some workflow' ->
        Client.post w' (Client.inject prompt_text' workflow').1
        = Client.PostResponse status_code' text' result' ->
        status_code' <> 200%Z ->
        (Client.generate_image w' prompt_text' output_path').1
        = (Client.generate_image w prompt_text output_path).1
        /\ List.last (Client.generate_image w' prompt_text' output_path').2
                     (Client.Prints Client.TimedOutWaiting)
           = Client.Prints (Client.FailedToSubmit status_code' text')
        /\ List.last (Client.generate_image w prompt_text output_path).2
                     (Client.Prints Client.Submitting)
           = Client.Prints Client.TimedOutWaiting).
Proof.
  intros Hfile Hpost Hpending.
  rewrite (generate_image_exhausted _ _ _ _ _ _ Hfile Hpost Hpending).
  split; [reflexivity|]. split.
  - apply exhausted_trace_polls, polls_inject.
  - intros w' prompt_text' output_path' workflow' status_code' text' result'
      Hfile' Hpost' Hstatus'.
    rewrite (generate_image_rejected _ _ _ _ _ _ _ Hfile' Hpost' Hstatus').
    split; [reflexivity|]. split.
    + apply rejected_trace_last.
    + apply exhausted_trace_last.
Qed.

(** ** The client on the sample servers *)

(** C5, as amended, on a server that answers 500 with the body "boom". *)
Lemma rejected_submission_is_reported_witness :
  Client.generate_image (Sample.rejecting 500 "boom") "a dish" "scene.png"
  = (false,
     [Client.Prints (Client.Updated "clip text encode (positive)");
      Client.Prints Client.Submitting;
      Client.Posts (Client.inject "a dish" Sample.workflow_file).1;
      Client.Prints (Client.FailedToSubmit 500 "boom")])
  /\ Client.polls
       (Client.generate_image (Sample.rejecting 500 "boom") "a dish" "scene.png").2
     = [].
Proof.
  apply (rejected_submission_is_reported (Sample.rejecting 500 "boom")
           "a dish" "scene.png" Sample.workflow_file 500 "boom" None).
  - reflexivity.
  - reflexivity.
  - discriminate.
Defined.

(** C5, as stated, fails on the value returned: two submissions rejected
    with different bodies return the same value, the bare [False]. *)
Lemma rejected_value_lacks_body :
  let run body :=
    Client.generate_image (Sample.rejecting 500 body) "a dish" "scene.png" in
  Client.post (Sample.rejecting 500 "boom") (Client.inject "a dish" Sample.workflow_file).1
  = Client.PostResponse 500 "boom" None
  /\ Client.post (Sample.rejecting 500 "bang") (Client.inject "a dish" Sample.workflow_file).1
     = Client.PostResponse 500 "bang" None
  /\ "boom" <> "bang"
  /\ (run "boom").1 = false
  /\ (run "boom").1 = (run "bang").1.
Proof.
  cbv zeta. split; [reflexivity|]. split; [reflexivity|].
  split; [discriminate|]. split; vm_compute; reflexivity.
Qed.

(** C4, as amended, on [Sample.silent]. *)
Lemma exhausted_budget_times_out_witness :
  (Client.generate_image Sample.silent "a dish" "scene.png").1 = false
  /\ length (Client.polls (Client.generate_image Sample.silent "a dish" "scene.png").2)
     = Client.max_attempts
  /\ List.last (Client.generate_image Sample.silent "a dish" "scene.png").2
               (Client.Prints Client.Submitting)
     = Client.Prints Client.TimedOutWaiting.
Proof.
  destruct (exhausted_budget_times_out Sample.silent "a dish" "scene.png"
              Sample.workflow_file "{}" (Some "job-1"))
    as (Hrun & Hpolls & Hother).
  - reflexivity.
  - reflexivity.
  - intros i _. reflexivity.
  - split; [rewrite Hrun; reflexivity|]. split; [exact Hpolls|].
    destruct (Hother (Sample.rejecting 500 "boom") "a dish" "scene.png"
                Sample.workflow_file 500%Z "boom" None) as (_ & _ & Hlast).
    + reflexivity.
    + reflexivity.
    + discriminate.
    + exact Hlast.
Defined.

(** C4, as stated, fails on the value returned: a job that never reports
    outputs and a rejected submission both make [generate_image] return
    [False]. *)
Lemma timed_out_value_is_failed_value :
  Client.post Sample.silent (Client.inject "a dish" Sample.workflow_file).1
  = Client.PostResponse 200 "{}" (Some (Some "job-1"))
  /\ (forall i, i < Client.max_attempts ->
        Client.pending (Some "job-1") (Client.get Sample.silent i (Some "job-1")) = true)
  /\ Client.post (Sample.rejecting 500 "boom") (Client.inject "a dish" Sample.workflow_file).1
     = Client.PostResponse 500 "boom" None
  /\ (Client.generate_image Sample.silent "a dish" "scene.png").1
     = (Client.generate_image (Sample.rejecting 500 "boom") "a dish" "scene.png").1.
Proof.
  split; [reflexivity|]. split; [intros i _; reflexivity|].
  split; [reflexivity|]. vm_compute. reflexivity.
Qed.

(** * Further properties of the scripts *)

(** ** The converter: errors and shape of the result *)

Lemma convert_widgets_raises n :
  Py.is_ok (Converter.convert_widgets n) = false <->
  Editor.type n = "CLIPTextEncode" /\ Editor.widgets_values n = Some [].
Proof.
  unfold Converter.convert_widgets.
  destruct (Editor.widgets_values n) as [[|v wv]|];
    destruct (decide (Editor.type n = "CLIPTextEncode")); cbn;
    split; try done; intros [? ?]; try done.
Qed.

Lemma forallb_false_exists {A : Type} (f : A -> bool) (xs : list A) :
  forallb f xs = false <-> exists x, x ∈ xs /\ f x = false.
Proof.
  induction xs as [|y xs IH]; cbn [forallb].
  - split; [done|]. intros (x & Hx & _). by apply elem_of_nil in Hx.
  - rewrite andb_false_iff, IH. split.
    + intros [Hy|(x & Hx & Hfx)].
      * exists y. split; [apply elem_of_cons; by left | done].
      * exists x. split; [apply elem_of_cons; by right | done].
    + intros (x & [->|Hx]%elem_of_cons & Hfx); [by left | right; eauto].
Qed.

Lemma convert_is_ok (w : Editor.workflow) :
  Py.is_ok (Converter.convert_workflow_to_api w)
  = forallb (fun n => Py.is_ok (Converter.convert_widgets n)) (Editor.node_list w).
Proof.
  unfold Converter.convert_workflow_to_api, Editor.node_list.
  destruct (Editor.nodes w); [apply convert_nodes_ok | done].
Qed.

(** The conversion raises [IndexError] exactly when some [CLIPTextEncode]
    node has an empty [widgets_values] list; the link table and the input
    slots never make it fail. *)
Theorem convert_raises_index_error (w : Editor.workflow) :
  Converter.convert_workflow_to_api w = Py.Raise Py.IndexError <->
  (exists n, n ∈ Editor.node_list w
             /\ Editor.type n = "CLIPTextEncode"
             /\ Editor.widgets_values n = Some []).
Proof.
  pose proof (convert_is_ok w) as Hok.
  split.
  - intros Hraise. rewrite Hraise in Hok. cbn [Py.is_ok] in Hok. symmetry in Hok.
    apply forallb_false_exists in Hok as (n & Hn & Hbad).
    exists n. split; [done|]. by apply convert_widgets_raises.
  - intros (n & Hn & Hbad).
    assert (Hfalse : forallb (fun n => Py.is_ok (Converter.convert_widgets n))
                             (Editor.node_list w) = false).
    { apply forallb_false_exists. exists n. split; [done|].
      by apply convert_widgets_raises. }
    rewrite Hfalse in Hok.
    destruct (Converter.convert_workflow_to_api w) as [g|[]]; [done | done].
Qed.

(** On [Fixture.empty_widgets] the conversion raises. *)
Lemma convert_raises_on_empty_widgets :
  Converter.convert_workflow_to_api Fixture.empty_widgets = Py.Raise Py.IndexError.
Proof. vm_compute. reflexivity. Qed.

Lemma dict_set_keys_nodup {V : Type} (k : string) (v : V) (d : Dict.t V) :
  NoDup (Dict.keys d) -> NoDup (Dict.keys (Dict.set k v d)).
Proof.
  intros Hnd. rewrite dict_keys_set.
  destruct (decide (k ∈ Dict.keys d)) as [Hin|Hnin]; [done|].
  apply NoDup_app. split; [done|]. split.
  - intros k' Hk' ->%list_elem_of_singleton. done.
  - apply NoDup_singleton.
Qed.

Lemma convert_nodes_keys_nodup w ns d g :
  Converter.convert_nodes w ns d = Py.Ok g ->
  NoDup (Dict.keys d) -> NoDup (Dict.keys g).
Proof.
  revert d. induction ns as [|n ns IH]; intros d; cbn [Converter.convert_nodes].
  - by intros [= <-].
  - destruct (Converter.convert_node w n) as [a|e]; cbn [Py.bind]; [|done].
    intros Hg Hnd. apply (IH _ Hg). by apply dict_set_keys_nodup.
Qed.

Lemma convert_ok_inv w g :
  Converter.convert_workflow_to_api w = Py.Ok g ->
  Converter.convert_nodes w (Editor.node_list w) [] = Py.Ok g.
Proof.
  unfold Converter.convert_workflow_to_api, Editor.node_list.
  by destruct (Editor.nodes w).
Qed.

(** Whatever the ids of the nodes, the keys of the converted graph are
    pairwise distinct, they are exactly the string forms of the node ids, and
    there are at most as many keys as nodes. *)
Theorem convert_keys_are_node_ids (w : Editor.workflow) (g : Api.workflow) :
  Converter.convert_workflow_to_api w = Py.Ok g ->
  NoDup (Dict.keys g)
  /\ (forall k, k ∈ Dict.keys g <->
                exists n, n ∈ Editor.node_list w /\ k = Py.str (Editor.id n))
  /\ length (Dict.keys g) <= length (Editor.node_list w).
Proof.
  intros Hg%convert_ok_inv.
  assert (Hnd : NoDup (Dict.keys g)).
  { apply (convert_nodes_keys_nodup _ _ _ _ Hg). apply NoDup_nil_2. }
  assert (Hkeys : forall k, k ∈ Dict.keys g <->
            exists n, n ∈ Editor.node_list w /\ k = Py.str (Editor.id n)).
  { intros k. rewrite (convert_nodes_keys _ _ _ _ k Hg). split; [|by right].
    intros [Hnil|?]; [by apply elem_of_nil in Hnil | done]. }
  split; [done|]. split; [done|].
  rewrite <- (length_fmap (fun n => Py.str (Editor.id n)) (Editor.node_list w)).
  apply submseteq_length, NoDup_submseteq; [done|].
  intros k (n & Hn & ->)%Hkeys. apply list_elem_of_fmap. eauto.
Qed.

(** On [Fixture.twice_six], three nodes give two keys. *)
Lemma convert_keys_are_node_ids_witness :
  exists g, Converter.convert_workflow_to_api Fixture.twice_six = Py.Ok g
            /\ Dict.keys g = ["6"; "12"]
            /\ NoDup (Dict.keys g)
            /\ length (Dict.keys g) <= 3.
Proof.
  destruct (Converter.convert_workflow_to_api Fixture.twice_six) as [g|e] eqn:Hg;
    [|vm_compute in Hg; discriminate Hg].
  exists g. split; [reflexivity|].
  destruct (convert_keys_are_node_ids Fixture.twice_six g Hg) as (Hnd & _ & Hlen).
  split; [|split; [exact Hnd | exact Hlen]].
  vm_compute in Hg. injection Hg as <-. reflexivity.
Defined.

(** When several nodes have the same id, the converted graph holds, under
    that id, the conversion of the last of them. *)
Theorem convert_last_node_wins (w : Editor.workflow) (g : Api.workflow)
    (ns1 ns2 : list Editor.node) (n : Editor.node) :
  Editor.nodes w = Some (ns1 ++ n :: ns2) ->
  (forall n', n' ∈ ns2 -> Editor.id n' <> Editor.id n) ->
  Converter.convert_workflow_to_api w = Py.Ok g ->
  exists a, Converter.convert_node w n = Py.Ok a
            /\ Dict.get (Py.str (Editor.id n)) g = Some a.
Proof.
  intros Hns Hlast Hg.
  unfold Converter.convert_workflow_to_api in Hg. rewrite Hns in Hg.
  apply convert_nodes_app in Hg as (d1 & _ & Hg).
  cbn [Converter.convert_nodes] in Hg.
  destruct (Converter.convert_node w n) as [a|e] eqn:Hn; cbn [Py.bind] in Hg; [|done].
  exists a. split; [done|].
  rewrite (convert_nodes_get _ _ _ _ _ Hg).
  - apply dict_get_set_eq.
  - intros n' Hn' Heq. by apply (Hlast n' Hn'), str_inj.
Qed.

(** On [Fixture.twice_six] the key "6" holds the text encoder, not the
    sampler that came first. *)
Lemma convert_last_node_wins_witness :
  exists g a, Converter.convert_workflow_to_api Fixture.twice_six = Py.Ok g
              /\ Dict.get "6" g = Some a
              /\ Api.class_type a = "CLIPTextEncode".
Proof.
  destruct (Converter.convert_workflow_to_api Fixture.twice_six) as [g|e] eqn:Hg;
    [|vm_compute in Hg; discriminate Hg].
  destruct (convert_last_node_wins Fixture.twice_six g
              [Fixture.node 6 "KSampler" None [Sample.slot "model" 7]; Sample.loader]
              [] (Sample.encoder [Sample.slot "clip" 7]))
    as (a & Ha & Hget).
  - reflexivity.
  - intros n' Hn'. by apply elem_of_nil in Hn'.
  - exact Hg.
  - exists g, a. split; [reflexivity|]. split; [exact Hget|].
    vm_compute in Ha. injection Ha as <-. reflexivity.
Defined.

Lemma fold_inputs_origin_slot w ins m nm v :
  fold_left (Converter.convert_input w) ins m !! nm = Some v ->
  m !! nm = Some v \/
  exists x l, x ∈ ins /\ Editor.name x = nm
              /\ Converter.resolved w x = Some l
              /\ v = Converter.reference_of l.
Proof.
  revert m. induction ins as [|x ins IH]; intros m; cbn [fold_left]; [by left|].
  intros [Hm|(y & l & Hy & ? & ? & ?)]%IH.
  - rewrite convert_input_resolved in Hm.
    destruct (Converter.resolved w x) as [l|] eqn:Hx; [|by left].
    apply lookup_insert_Some in Hm as [[<- <-]|[_ Hm]]; [|by left].
    right. exists x, l. split; [apply elem_of_cons; by left | done].
  - right. exists y, l. split; [apply elem_of_cons; by right | done].
Qed.

(** Every entry of the converted graph is the conversion of a node of the
    editor graph: its key is the node's id, its [class_type] the node's type,
    its title the node's title, and each of its inputs is either the first
    widget value of a [CLIPTextEncode] node, under the name [text], or the
    reference of an input slot of that name that resolves in the link table.
    The converter adds no other input. *)
Theorem convert_entries_come_from_nodes (w : Editor.workflow) (g : Api.workflow)
    (k : string) (a : Api.node) :
  Converter.convert_workflow_to_api w = Py.Ok g ->
  (k, a) ∈ g ->
  exists n, n ∈ Editor.node_list w
    /\ k = Py.str (Editor.id n)
    /\ Api.class_type a = Editor.type n
    /\ Api.meta_title a = Editor.title n
    /\ forall nm v, Api.inputs a !! nm = Some v ->
         (nm = "text" /\ Editor.type n = "CLIPTextEncode"
          /\ exists wv, Editor.widgets_values n = Some (v :: wv))
         \/ (exists x l, x ∈ Editor.input_list n /\ Editor.name x = nm
                         /\ Converter.resolved w x = Some l
                         /\ v = Api.reference (Py.str (Editor.source_node l))
                                              (Editor.source_slot l)).
Proof.
  intros Hg%convert_ok_inv Hin.
  destruct (convert_nodes_entries _ _ _ _ _ _ Hg Hin)
    as [Hnil|(n & Hn & -> & Hconv)]; [by apply elem_of_nil in Hnil|].
  apply convert_node_inv in Hconv as (m0 & Hm0 & ->).
  exists n. repeat (split; [done|]). cbn [Api.inputs].
  intros nm v [Hlit|Hslot]%fold_inputs_origin_slot.
  - left. destruct (convert_widgets_lookup _ _ _ _ Hm0 Hlit) as (? & ? & ?). done.
  - by right.
Qed.

(** On [Sample.plain], the entry "6". *)
Lemma convert_entries_come_from_nodes_witness :
  exists n, n ∈ Editor.node_list Sample.plain
    /\ Editor.id n = 6%Z
    /\ Editor.type n = "CLIPTextEncode"
    /\ Editor.title n = Some "CLIP Text Encode (Positive)".
Proof.
  destruct (convert_entries_come_from_nodes Sample.plain Sample.plain_api "6"
              {| Api.class_type := "CLIPTextEncode";
                 Api.inputs := <["clip" := Api.reference "12" 0]>
                                 (<["text" := Py.VStr "hello"]> ∅);
                 Api.meta_title := Some "CLIP Text Encode (Positive)" |})
    as (n & Hn & Hk & Hty & Hti & _).
  - exact plain_converts.
  - do 2 constructor.
  - exists n. split; [exact Hn|]. split; [|split; [symmetry; exact Hty | symmetry; exact Hti]].
    apply str_inj. symmetry. exact Hk.
Defined.

Lemma convert_without_slot w ns1 n ns2 ins1 x ins2 :
  Editor.nodes w = Some (ns1 ++ n :: ns2) ->
  Editor.inputs n = Some (ins1 ++ x :: ins2) ->
  Converter.resolved w x = None ->
  Converter.convert_workflow_to_api w
  = Converter.convert_workflow_to_api
      (Editor.with_nodes (ns1 ++ Editor.with_inputs (ins1 ++ ins2) n :: ns2) w).
Proof.
  intros Hns Hins Hx.
  unfold Converter.convert_workflow_to_api, Editor.with_nodes.
  rewrite Hns. cbn [Editor.nodes].
  assert (Hsame : forall ns : list Editor.node,
            Forall2 (fun n1 n2 => Editor.id n1 = Editor.id n2 /\
               Converter.convert_node w n1
               = Converter.convert_node
                   {| Editor.nodes := Some (ns1 ++ Editor.with_inputs (ins1 ++ ins2) n :: ns2);
                      Editor.links := Editor.links w |} n2) ns ns).
  { intros ns. apply Forall_Forall2_diag, Forall_forall. intros n' _.
    split; [done|]. by apply convert_node_links. }
  apply convert_nodes_pointwise, Forall2_app; [apply Hsame|].
  constructor; [|apply Hsame]. split; [done|].
  transitivity (Converter.convert_node w (Editor.with_inputs (ins1 ++ ins2) n));
    [|by apply convert_node_links].
  unfold Converter.convert_node. rewrite convert_widgets_with_inputs.
  destruct (Converter.convert_widgets n) as [m0|e]; cbn [Py.bind]; [|done].
  cbn [Editor.with_inputs Editor.inputs Editor.type Editor.title].
  rewrite Hins. by rewrite fold_inputs_skip.
Qed.

(** An input slot that has no [link] key, or whose [link] is [null], is
    ignored whatever the link table holds: the graph converts exactly as the
    graph without that slot. *)
Theorem unlinked_slot_is_ignored (w : Editor.workflow)
    (ns1 ns2 : list Editor.node) (n : Editor.node)
    (ins1 ins2 : list Editor.input_info) (x : Editor.input_info) :
  Editor.nodes w = Some (ns1 ++ n :: ns2) ->
  Editor.inputs n = Some (ins1 ++ x :: ins2) ->
  Editor.link x = None \/ Editor.link x = Some None ->
  Converter.convert_workflow_to_api w
  = Converter.convert_workflow_to_api
      (Editor.with_nodes (ns1 ++ Editor.with_inputs (ins1 ++ ins2) n :: ns2) w).
Proof.
  intros Hns Hins Hlink. apply (convert_without_slot w ns1 n ns2 ins1 x ins2 Hns Hins).
  unfold Converter.resolved. destruct Hlink as [-> | ->]; [done|].
  apply first_match_none. intros l _. discriminate.
Qed.

(** [Sample.plain] with a [null] slot in front of the [clip] slot of the
    encoder converts as [Sample.plain] does. *)
Lemma unlinked_slot_is_ignored_witness :
  Converter.convert_workflow_to_api
    {| Editor.nodes :=
         Some [Sample.loader;
               Sample.encoder [Fixture.null_link "text"; Sample.slot "clip" 7]];
       Editor.links := Some [Sample.edge 7 12 0] |}
  = Py.Ok Sample.plain_api.
Proof.
  rewrite (unlinked_slot_is_ignored _ [Sample.loader] []
             (Sample.encoder [Fixture.null_link "text"; Sample.slot "clip" 7])
             [] [Sample.slot "clip" 7] (Fixture.null_link "text")).
  - vm_compute. reflexivity.
  - reflexivity.
  - reflexivity.
  - right. reflexivity.
Defined.

(** Without a [links] key no input is ever a reference written by the
    converter: the only input a converted node can have is [text], the first
    widget value of a [CLIPTextEncode] node. *)
Theorem convert_without_link_table (w : Editor.workflow) (g : Api.workflow)
    (k : string) (a : Api.node) (nm : string) (v : Py.value) :
  Editor.links w = None ->
  Converter.convert_workflow_to_api w = Py.Ok g ->
  (k, a) ∈ g ->
  Api.inputs a !! nm = Some v ->
  nm = "text" /\ Api.class_type a = "CLIPTextEncode"
  /\ exists n wv, n ∈ Editor.node_list w /\ k = Py.str (Editor.id n)
                  /\ Editor.widgets_values n = Some (v :: wv).
Proof.
  intros Hlinks Hg%convert_ok_inv Hin Hlook.
  destruct (convert_nodes_entries _ _ _ _ _ _ Hg Hin)
    as [Hnil|(n & Hn & -> & Hconv)]; [by apply elem_of_nil in Hnil|].
  apply convert_node_inv in Hconv as (m0 & Hm0 & ->). cbn [Api.inputs Api.class_type] in *.
  apply fold_inputs_origin_slot in Hlook as [Hlit|(x & l & _ & _ & Hres & _)].
  - destruct (convert_widgets_lookup _ _ _ _ Hm0 Hlit) as (? & ? & wv & ?).
    split; [done|]. split; [done|]. by exists n, wv.
  - unfold Converter.resolved, Editor.link_list in Hres. rewrite Hlinks in Hres.
    by destruct (Editor.link x).
Qed.

(** On [Fixture.no_links] the encoder keeps its text and gets no [clip]. *)
Lemma convert_without_link_table_witness :
  exists g a, Converter.convert_workflow_to_api Fixture.no_links = Py.Ok g
    /\ Dict.get "6" g = Some a
    /\ Api.inputs a !! "text" = Some (Py.VStr "hello")
    /\ Api.inputs a !! "clip" = None
    /\ Api.class_type a = "CLIPTextEncode".
Proof.
  set (a := {| Api.class_type := "CLIPTextEncode";
               Api.inputs := <["text" := Py.VStr "hello"]> ∅;
               Api.meta_title := Some "CLIP Text Encode (Positive)" |}).
  set (g := [("12", {| Api.class_type := "CLIPLoader"; Api.inputs := ∅;
                       Api.meta_title := None |}); ("6", a)]).
  exists g, a. split; [vm_compute; reflexivity|]. split; [vm_compute; reflexivity|].
  split; [vm_compute; reflexivity|]. split; [vm_compute; reflexivity|].
  apply (convert_without_link_table Fixture.no_links g "6" a "text" (Py.VStr "hello")).
  - reflexivity.
  - vm_compute. reflexivity.
  - do 2 constructor.
  - vm_compute. reflexivity.
Defined.

(** ** Prompt injection: what the loops keep *)

Lemma positive_api_set_text text a :
  Selector.positive_api (Selector.set_text text a) = Selector.positive_api a.
Proof. reflexivity. Qed.

Lemma update_positive_prompt_entries text (g : Api.workflow) k a' :
  (k, a') ∈ Selector.update_positive_prompt text g ->
  (k, a') ∈ g \/ exists a, (k, a) ∈ g /\ a' = Selector.set_text text a.
Proof.
  induction g as [|[k0 a0] g IH]; cbn [Selector.update_positive_prompt]; [by left|].
  destruct (Selector.positive_api a0).
  - intros [Heq|Hin]%elem_of_cons.
    + injection Heq as -> ->. right. exists a0. split; [constructor | done].
    + left. by constructor.
  - intros [Heq|Hin]%elem_of_cons.
    + left. rewrite Heq. constructor.
    + destruct (IH Hin) as [?|(a & ? & ?)]; [left | right].
      * by constructor.
      * exists a. split; [by constructor | done].
Qed.

Lemma update_positive_prompt_keys text (g : Api.workflow) :
  Dict.keys (Selector.update_positive_prompt text g) = Dict.keys g.
Proof.
  unfold Dict.keys. induction g as [|[k0 a0] g IH];
    cbn [Selector.update_positive_prompt]; [done|].
  destruct (Selector.positive_api a0); [done|].
  cbn [fmap list_fmap fst]. f_equal. apply IH.
Qed.

(** The prompt update of convert-workflow.py keeps the graph in shape: the
    keys and their order, and for every node its [class_type], its title and
    every input other than [text]. *)
Theorem update_positive_prompt_keeps_shape (text : string) (g : Api.workflow) :
  Dict.keys (Selector.update_positive_prompt text g) = Dict.keys g
  /\ Forall2 (fun e e' =>
                e.1 = e'.1
                /\ Api.class_type e.2 = Api.class_type e'.2
                /\ Api.meta_title e.2 = Api.meta_title e'.2
                /\ forall nm, nm <> "text" ->
                     Api.inputs e.2 !! nm = Api.inputs e'.2 !! nm)
             g (Selector.update_positive_prompt text g).
Proof.
  split; [apply update_positive_prompt_keys|].
  induction g as [|[k0 a0] g IH]; cbn [Selector.update_positive_prompt];
    [constructor|].
  destruct (Selector.positive_api a0).
  - constructor.
    + cbn. repeat (split; [done|]). intros nm Hnm. by rewrite lookup_insert_ne.
    + apply Forall_Forall2_diag, Forall_forall. by intros [k a] _.
  - constructor; [done | apply IH].
Qed.

(** The prompt update keeps the invariant of the converter: a graph without
    dangling references has none after the update. *)
Theorem update_positive_prompt_keeps_references (text : string) (g : Api.workflow) :
  Api.no_dangling g ->
  Api.no_dangling (Selector.update_positive_prompt text g).
Proof.
  intros Hg k a' nm src slot Hin Hlook.
  rewrite update_positive_prompt_keys.
  apply update_positive_prompt_entries in Hin as [Hin|(a & Hin & ->)].
  - by apply (Hg k a' nm src slot).
  - cbn [Selector.set_text Api.inputs] in Hlook.
    apply lookup_insert_Some in Hlook as [[_ [=]]|[_ Hlook]].
    by apply (Hg k a nm src slot).
Qed.

Lemma checker_sound (g : Api.workflow) :
  Checker.no_dangling g -> Api.no_dangling g.
Proof.
  unfold Checker.no_dangling. rewrite Forall_forall.
  intros Hcheck k a nm src slot Hin Hlook.
  specialize (Hcheck (k, a) Hin nm _ Hlook). cbn in Hcheck.
  by apply bool_decide_eq_true in Hcheck.
Qed.

Lemma negative_then_positive_no_dangling : Api.no_dangling Sample.negative_then_positive.
Proof. apply checker_sound, (bool_decide_unpack _). by vm_compute. Qed.

(** On [Sample.negative_then_positive]. *)
Lemma update_positive_prompt_keeps_references_witness :
  Api.no_dangling
    (Selector.update_positive_prompt "a new prompt" Sample.negative_then_positive).
Proof.
  apply update_positive_prompt_keeps_references.
  exact negative_then_positive_no_dangling.
Defined.

(** When no node is a text encoder with a title that lacks "negative", the
    prompt update changes nothing. *)
Theorem update_positive_prompt_without_target (text : string) (g : Api.workflow) :
  Forall (fun e => Selector.positive_api e.2 = false) g ->
  Selector.update_positive_prompt text g = g.
Proof.
  induction 1 as [|[k a] g Ha _ IH]; cbn [Selector.update_positive_prompt]; [done|].
  cbn in Ha. by rewrite Ha, IH.
Qed.

(** A graph whose only text encoder is the negative one is left as it is. *)
Lemma update_positive_prompt_without_target_witness :
  let g := [("4", {| Api.class_type := "CheckpointLoaderSimple"; Api.inputs := ∅;
                     Api.meta_title := None |});
            ("7", Sample.api_encoder "CLIP Text Encode (Negative)" "blurry")] in
  Selector.update_positive_prompt "a new prompt" g = g.
Proof.
  cbv zeta. apply update_positive_prompt_without_target.
  repeat constructor.
Defined.

(** Updating twice is updating once with the last prompt: the second update
    finds the node the first one wrote to. *)
Theorem update_positive_prompt_last_wins (text1 text2 : string) (g : Api.workflow) :
  Selector.update_positive_prompt text2 (Selector.update_positive_prompt text1 g)
  = Selector.update_positive_prompt text2 g.
Proof.
  induction g as [|[k a] g IH]; cbn [Selector.update_positive_prompt]; [done|].
  destruct (Selector.positive_api a) eqn:Ha; cbn [Selector.update_positive_prompt].
  - rewrite positive_api_set_text, Ha. do 2 f_equal.
    unfold Selector.set_text. cbn [Api.class_type Api.inputs Api.meta_title].
    by rewrite insert_insert_eq.
  - by rewrite Ha, IH.
Qed.

(** ** The loops over the editor graph *)

Lemma inject_local_untouched text ns :
  Forall (fun n => Selector.positive_editor n = false) ns ->
  Selector.inject_local text ns = ns.
Proof.
  induction 1 as [|n ns Hn _ IH]; cbn [Selector.inject_local]; [done|].
  by rewrite Hn, IH.
Qed.

Lemma filter_nil_forall {A : Type} (f : A -> bool) (xs : list A) :
  List.filter f xs = [] -> Forall (fun x => f x = false) xs.
Proof.
  induction xs as [|x xs IH]; cbn [List.filter]; [constructor|].
  destruct (f x) eqn:Hx; [done|]. intros Hnil. constructor; [done | by apply IH].
Qed.

(** The loop of generate-images-local.py and that of
    generate-images-working.py give the same nodes whenever at most one node
    is eligible; the missing [break] shows only from the second eligible
    node on. *)
Theorem inject_local_agrees_with_working (text : string) (ns : list Editor.node) :
  length (List.filter Selector.positive_editor ns) <= 1 ->
  Selector.inject_local text ns = (Selector.inject_working text ns).1.
Proof.
  induction ns as [|n ns IH];
    cbn [List.filter Selector.inject_local Selector.inject_working]; [done|].
  destruct (Selector.positive_editor n) eqn:Hn.
  - cbn [length fst]. intros Hlen. f_equal.
    apply inject_local_untouched, filter_nil_forall.
    destruct (List.filter Selector.positive_editor ns); [done | cbn in Hlen; lia].
  - intros Hlen. rewrite (IH Hlen).
    by destruct (Selector.inject_working text ns).
Qed.

(** On the negative and the positive encoder. *)
Lemma inject_local_agrees_with_working_witness :
  Selector.inject_local "a new prompt" [Sample.editor_negative; Sample.editor_positive]
  = (Selector.inject_working "a new prompt"
       [Sample.editor_negative; Sample.editor_positive]).1.
Proof.
  apply inject_local_agrees_with_working. vm_compute. lia.
Defined.

(** Both loops touch [widgets_values] only: the nodes keep their number,
    their order, their ids, types, titles and input slots, so the link table
    still fits the graph that is submitted. *)
Theorem injection_keeps_nodes (text : string) (ns : list Editor.node) :
  let same n n' :=
    Editor.id n = Editor.id n' /\ Editor.type n = Editor.type n'
    /\ Editor.title n = Editor.title n' /\ Editor.inputs n = Editor.inputs n' in
  Forall2 same ns (Selector.inject_local text ns)
  /\ Forall2 same ns (Selector.inject_working text ns).1.
Proof.
  cbv zeta. split.
  - induction ns as [|n ns IH]; cbn [Selector.inject_local]; [constructor|].
    constructor; [|apply IH]. by destruct (Selector.positive_editor n).
  - induction ns as [|n ns IH]; cbn [Selector.inject_working]; [constructor|].
    destruct (Selector.positive_editor n).
    + constructor; [done|]. apply Forall_Forall2_diag, Forall_forall. by intros.
    + destruct (Selector.inject_working text ns) as [ns' printed].
      constructor; [done | apply IH].
Qed.

(** ** The loop of debug-workflow-submit.py *)

Lemma debug_update_from_first text i ns ns1 n ns2 :
  Selector.first_hit Debug.positive ns ns1 n ns2 ->
  (Debug.update_from text i ns).1 = ns1 ++ Selector.set_widgets text n :: ns2
  /\ List.last (Debug.update_from text i ns).2 (Debug.Updating 0)
     = Debug.Updating (i + length ns1).
Proof.
  intros (-> & Hbefore & Hn). revert i.
  induction Hbefore as [|n' ns1 Hn' _ IH]; intros i; cbn [app Debug.update_from].
  - unfold Debug.positive, Selector.lacks_negative in Hn.
    apply andb_true_iff in Hn as [-> ->]. cbn. by rewrite Nat.add_0_r.
  - specialize (IH (S i)). destruct IH as [IH1 IH2].
    unfold Debug.positive, Selector.lacks_negative in Hn'.
    destruct (bool_decide (Editor.type n' = "CLIPTextEncode")); cbn [andb] in Hn'.
    + rewrite Hn'.
      destruct (Debug.update_from text (S i) (ns1 ++ n :: ns2)) as [rest printed].
      cbn [fst snd] in *. split; [by rewrite IH1|].
      cbn [length]. rewrite <- Nat.add_succ_comm, <- IH2.
      destruct printed; [cbn in IH2; discriminate IH2 | done].
    + destruct (Debug.update_from text (S i) (ns1 ++ n :: ns2)) as [rest printed].
      cbn [fst snd] in *. split; [by rewrite IH1|].
      cbn [length]. by rewrite <- Nat.add_succ_comm, <- IH2.
Qed.

(** The loop of debug-workflow-submit.py has no test on [widgets_values]: it
    overwrites the first text encoder whose title lacks "negative", also when
    that node had no [widgets_values] key, leaves every other node as it was,
    and the index it prints last is the position of that node. *)
Theorem debug_loop_updates_first_positive (text : string)
    (ns ns1 ns2 : list Editor.node) (n : Editor.node) :
  Selector.first_hit Debug.positive ns ns1 n ns2 ->
  (Debug.update_positive text ns).1 = ns1 ++ Selector.set_widgets text n :: ns2
  /\ List.last (Debug.update_positive text ns).2 (Debug.Updating 0)
     = Debug.Updating (length ns1).
Proof.
  intros Hhit. apply (debug_update_from_first text 0 ns ns1 n ns2 Hhit).
Qed.

(** On a positive encoder without [widgets_values] followed by another
    positive encoder: the first one is the one updated. *)
Lemma debug_loop_updates_first_positive_witness :
  (Debug.update_positive "a beautiful landscape"
     [Sample.editor_negative; Sample.editor_bare; Sample.editor_positive]).1
  = [Sample.editor_negative;
     Selector.set_widgets "a beautiful landscape" Sample.editor_bare;
     Sample.editor_positive]
  /\ List.last (Debug.update_positive "a beautiful landscape"
                  [Sample.editor_negative; Sample.editor_bare; Sample.editor_positive]).2
               (Debug.Updating 0)
     = Debug.Updating 1.
Proof.
  apply (debug_loop_updates_first_positive "a beautiful landscape"
           [Sample.editor_negative; Sample.editor_bare; Sample.editor_positive]
           [Sample.editor_negative] [Sample.editor_positive] Sample.editor_bare).
  split; [reflexivity|]. split; [|vm_compute; reflexivity].
  repeat constructor.
Defined.

(** When every text encoder carries [widgets_values], the loop of
    debug-workflow-submit.py and that of generate-images-working.py update
    the same node. *)
Theorem debug_loop_agrees_with_working (text : string) (ns : list Editor.node) :
  Forall (fun n => Editor.type n = "CLIPTextEncode" ->
                   is_Some (Editor.widgets_values n)) ns ->
  (Debug.update_positive text ns).1 = (Selector.inject_working text ns).1.
Proof.
  unfold Debug.update_positive. generalize 0.
  intros i Hall. revert i.
  induction Hall as [|n ns Hn _ IH]; intros i;
    cbn [Debug.update_from Selector.inject_working]; [done|].
  unfold Selector.positive_editor, Selector.lacks_negative.
  destruct (bool_decide (Editor.type n = "CLIPTextEncode")) eqn:Hty; cbn [andb].
  - apply bool_decide_eq_true in Hty.
    rewrite (bool_decide_eq_true_2 _ (Hn Hty)). cbn [andb].
    destruct (negb _); [done|].
    specialize (IH (S i)).
    destruct (Debug.update_from text (S i) ns), (Selector.inject_working text ns).
    cbn [fst] in *. by rewrite IH.
  - specialize (IH (S i)).
    destruct (Debug.update_from text (S i) ns), (Selector.inject_working text ns).
    cbn [fst] in *. by rewrite IH.
Qed.

(** On the negative and the positive encoder. *)
Lemma debug_loop_agrees_with_working_witness :
  (Debug.update_positive "a new prompt" [Sample.editor_negative; Sample.editor_positive]).1
  = (Selector.inject_working "a new prompt"
       [Sample.editor_negative; Sample.editor_positive]).1.
Proof.
  apply debug_loop_agrees_with_working.
  repeat constructor; intros _; eexists; reflexivity.
Defined.

(** ** The client: what every run keeps *)

Lemma posts_app tr1 tr2 :
  Trace.posts (tr1 ++ tr2) = Trace.posts tr1 ++ Trace.posts tr2.
Proof. apply List.filter_app. Qed.

Lemma copies_app tr1 tr2 :
  Trace.copies (tr1 ++ tr2) = Trace.copies tr1 ++ Trace.copies tr2.
Proof. apply List.filter_app. Qed.

Lemma inject_events prompt_text workflow :
  Forall (fun e => exists m, e = Client.Prints m)
         (Client.inject prompt_text workflow).2.
Proof.
  unfold Client.inject. destruct (Editor.nodes workflow) as [ns|]; [|constructor].
  destruct (Selector.inject_working prompt_text ns) as [ns' [title|]];
    repeat constructor. by eexists.
Qed.

Lemma posts_inject prompt_text workflow :
  Trace.posts (Client.inject prompt_text workflow).2 = [].
Proof.
  unfold Client.inject. destruct (Editor.nodes workflow) as [ns|]; [|done].
  by destruct (Selector.inject_working prompt_text ns) as [ns' [title|]].
Qed.

Lemma copies_inject prompt_text workflow :
  Trace.copies (Client.inject prompt_text workflow).2 = [].
Proof.
  unfold Client.inject. destruct (Editor.nodes workflow) as [ns|]; [|done].
  by destruct (Selector.inject_working prompt_text ns) as [ns' [title|]].
Qed.

(** One step of the loop, by what the poll answers. *)
Lemma poll_step w prompt_id output_path i n :
  Client.poll w prompt_id output_path i (S n)
  = match Client.get w i prompt_id with
    | Client.GetRaises => (Client.Raises, [Client.Gets prompt_id])
    | Client.GetResponse status_code body =>
        if decide (status_code = 200%Z) then
          match body with
          | None => (Client.Raises, [Client.Gets prompt_id])
          | Some history =>
              match Client.reported_outputs prompt_id history with
              | [] =>
                  ((Client.poll w prompt_id output_path (S i) n).1,
                   Client.Gets prompt_id :: Client.Sleeps 1
                   :: (Client.poll w prompt_id output_path (S i) n).2)
              | outs =>
                  match Client.first_image w outs with
                  | Some source_path =>
                      if Client.copy_succeeds w source_path output_path
                      then (Client.Returns true,
                            [Client.Gets prompt_id; Client.Prints Client.Complete;
                             Client.Copies source_path output_path;
                             Client.Prints (Client.Generated output_path)])
                      else (Client.Raises,
                            [Client.Gets prompt_id; Client.Prints Client.Complete;
                             Client.Copies source_path output_path])
                  | None =>
                      (Client.Returns false,
                       [Client.Gets prompt_id; Client.Prints Client.Complete;
                        Client.Prints Client.TimedOutWaiting])
                  end
              end
          end
        else ((Client.poll w prompt_id output_path (S i) n).1,
              Client.Gets prompt_id :: Client.Sleeps 1
              :: (Client.poll w prompt_id output_path (S i) n).2)
    end.
Proof.
  cbn [Client.poll].
  destruct (Client.poll w prompt_id output_path (S i) n) as [e tr].
  destruct (Client.get w i prompt_id) as [|status_code body]; [done|].
  destruct (decide (status_code = 200%Z)); [|done].
  destruct body as [history|]; [|done].
  by destruct (Client.reported_outputs prompt_id history).
Qed.

Lemma first_existing_find w imgs :
  Client.first_existing w imgs
  = List.find (Client.path_exists w)
      ((fun img => Client.output_dir +:+ Client.filename img) <$> imgs).
Proof.
  induction imgs as [|img imgs IH]; cbn [Client.first_existing fmap list_fmap List.find];
    [done|].
  by destruct (Client.path_exists w _).
Qed.

Lemma find_app {A : Type} (f : A -> bool) (xs ys : list A) :
  List.find f (xs ++ ys)
  = match List.find f xs with
    | Some x => Some x
    | None => List.find f ys
    end.
Proof.
  induction xs as [|x xs IH]; cbn [app List.find]; [done|].
  by destruct (f x).
Qed.

Lemma first_image_find w outs :
  Client.first_image w outs = List.find (Client.path_exists w) (Trace.candidates outs).
Proof.
  unfold Trace.candidates.
  induction outs as [|[k out] outs IH]; cbn [Client.first_image flat_map]; [done|].
  rewrite find_app, <- first_existing_find, <- IH. done.
Qed.

Lemma first_image_exists w outs source_path :
  Client.first_image w outs = Some source_path ->
  Client.path_exists w source_path = true.
Proof.
  rewrite first_image_find. intros H. by apply List.find_some in H as [_ ?].
Qed.

Lemma gets_of_short tr prompt_id :
  Forall (fun e => e = Client.Gets prompt_id \/ Client.is_get e = false) tr ->
  forall p, Client.Gets p ∈ tr -> p = prompt_id.
Proof.
  rewrite Forall_forall. intros H p Hp.
  destruct (H _ Hp) as [[= ->]|Hne]; [done | discriminate Hne].
Qed.

Ltac short_gets :=
  apply gets_of_short;
  repeat (constructor; [first [by left | by right]|]); constructor.

(** What holds of the events of the polling loop, whatever the server
    answers. *)
Lemma poll_facts w prompt_id output_path n i :
  let r := Client.poll w prompt_id output_path i n in
  length (Client.polls r.2) <= n
  /\ Trace.posts r.2 = []
  /\ length (Trace.copies r.2) <= 1
  /\ (forall p, Client.Gets p ∈ r.2 -> p = prompt_id)
  /\ (r.1 = Client.Returns true ->
      exists tr source_path,
        r.2 = tr ++ [Client.Copies source_path output_path;
                     Client.Prints (Client.Generated output_path)]
        /\ Trace.copies tr = []
        /\ Client.path_exists w source_path = true
        /\ Client.copy_succeeds w source_path output_path = true).
Proof.
  cbv zeta. revert i. induction n as [|n IH]; intros i.
  - simpl. split; [lia|]. split; [done|]. split; [lia|].
    split; [|done]. short_gets.
  - rewrite poll_step. specialize (IH (S i)).
    destruct IH as (IHpolls & IHposts & IHcopies & IHgets & IHtrue).
    assert (Hcontinue :
      let r := ((Client.poll w prompt_id output_path (S i) n).1,
                Client.Gets prompt_id :: Client.Sleeps 1
                :: (Client.poll w prompt_id output_path (S i) n).2) in
      length (Client.polls r.2) <= S n
      /\ Trace.posts r.2 = []
      /\ length (Trace.copies r.2) <= 1
      /\ (forall p, Client.Gets p ∈ r.2 -> p = prompt_id)
      /\ (r.1 = Client.Returns true ->
          exists tr source_path,
            r.2 = tr ++ [Client.Copies source_path output_path;
                         Client.Prints (Client.Generated output_path)]
            /\ Trace.copies tr = []
            /\ Client.path_exists w source_path = true
            /\ Client.copy_succeeds w source_path output_path = true)).
    { cbv zeta. cbn [fst snd].
      split; [simpl; lia|]. split; [done|]. split; [done|]. split.
      - intros p [[= ->]|[[=]|Hp]%elem_of_cons]%elem_of_cons; [done|].
        by apply IHgets.
      - intros (tr & source_path & Htr & ? & ? & ?)%IHtrue.
        exists (Client.Gets prompt_id :: Client.Sleeps 1 :: tr), source_path.
        rewrite Htr. done. }
    destruct (Client.get w i prompt_id) as [|status_code body].
    { simpl. split; [lia|]. split; [done|]. split; [lia|]. split; [|done].
      short_gets. }
    destruct (decide (status_code = 200%Z)); [|exact Hcontinue].
    destruct body as [history|].
    2:{ simpl. split; [lia|]. split; [done|]. split; [lia|]. split; [|done].
        short_gets. }
    destruct (Client.reported_outputs prompt_id history) as [|out outs] eqn:Houts;
      [exact Hcontinue|].
    destruct (Client.first_image w (out :: outs)) as [source_path|] eqn:Himg.
    + destruct (Client.copy_succeeds w source_path output_path) eqn:Hcopy.
      * simpl. split; [lia|]. split; [done|]. split; [lia|]. split.
        -- short_gets.
        -- intros _. exists [Client.Gets prompt_id; Client.Prints Client.Complete],
             source_path.
           split; [done|]. split; [done|]. split; [|done].
           by apply first_image_exists in Himg.
      * simpl. split; [lia|]. split; [done|]. split; [lia|]. split; [|done].
        short_gets.
    + simpl. split; [lia|]. split; [done|]. split; [lia|]. split; [|done].
      short_gets.
Qed.

(** A run whose submission is accepted, by what the polling loop gives. *)
Lemma generate_image_accepted (w : Client.world)
    (prompt_text output_path : string) (workflow : Editor.workflow)
    (text : string) (prompt_id : option string) :
  Client.workflow_file w = Some workflow ->
  Client.post w (Client.inject prompt_text workflow).1
  = Client.PostResponse 200 text (Some prompt_id) ->
  let before := (Client.inject prompt_text workflow).2
                ++ [Client.Prints Client.Submitting;
                    Client.Posts (Client.inject prompt_text workflow).1;
                    Client.Prints (Client.Submitted prompt_id)] in
  let r := Client.poll w prompt_id output_path 0 Client.max_attempts in
  Client.generate_image w prompt_text output_path
  = match r.1 with
    | Client.Returns b => (b, before ++ r.2)
    | Client.Raises => (false, before ++ r.2 ++ [Client.Prints Client.ErrorGenerating])
    end.
Proof.
  intros Hfile Hpost. cbv zeta.
  unfold Client.generate_image, Client.try_generate_image. rewrite Hfile.
  destruct (Client.inject prompt_text workflow) as [workflow' updated].
  cbn [fst snd] in *. rewrite Hpost. rewrite decide_True by done.
  destruct (Client.poll w prompt_id output_path 0 Client.max_attempts) as [[b|] tr];
    cbn [fst snd].
  - rewrite <- !app_assoc. reflexivity.
  - rewrite <- !app_assoc. reflexivity.
Qed.

(** The shape of any run: either nothing is posted, or one submission is
    posted and answered, and then either no poll is made or the polling loop
    runs with the prompt id of the answer. *)
Lemma generate_image_shape (w : Client.world) (prompt_text output_path : string) :
  let run := Client.generate_image w prompt_text output_path in
  (run = (false, [Client.Prints Client.ErrorGenerating])
   /\ Client.workflow_file w = None)
  \/ (exists workflow last,
        Client.workflow_file w = Some workflow
        /\ run = (false,
                  (Client.inject prompt_text workflow).2
                  ++ [Client.Prints Client.Submitting;
                      Client.Posts (Client.inject prompt_text workflow).1;
                      Client.Prints last])
        /\ forall text prompt_id,
             Client.post w (Client.inject prompt_text workflow).1
             <> Client.PostResponse 200 text (Some prompt_id))
  \/ (exists workflow text prompt_id,
        Client.workflow_file w = Some workflow
        /\ Client.post w (Client.inject prompt_text workflow).1
           = Client.PostResponse 200 text (Some prompt_id)
        /\ let before := (Client.inject prompt_text workflow).2
                         ++ [Client.Prints Client.Submitting;
                             Client.Posts (Client.inject prompt_text workflow).1;
                             Client.Prints (Client.Submitted prompt_id)] in
           let r := Client.poll w prompt_id output_path 0 Client.max_attempts in
           run = match r.1 with
                 | Client.Returns b => (b, before ++ r.2)
                 | Client.Raises =>
                     (false, before ++ r.2 ++ [Client.Prints Client.ErrorGenerating])
                 end).
Proof.
  cbv zeta.
  destruct (Client.workflow_file w) as [workflow|] eqn:Hfile.
  2:{ left. unfold Client.generate_image, Client.try_generate_image.
      by rewrite Hfile. }
  right.
  destruct (Client.post w (Client.inject prompt_text workflow).1)
    as [|status_code text [prompt_id|]] eqn:Hpost.
  - left. exists workflow, Client.ErrorGenerating. split; [done|]. split; [|intros ? ?; congruence].
    unfold Client.generate_image, Client.try_generate_image. rewrite Hfile.
    destruct (Client.inject prompt_text workflow) as [workflow' updated].
    cbn [fst snd] in *. rewrite Hpost. by rewrite <- app_assoc.
  - destruct (decide (status_code = 200%Z)) as [->|Hstatus].
    + right. exists workflow, text, prompt_id. split; [done|]. split; [done|].
      apply (generate_image_accepted _ _ _ _ text _ Hfile Hpost).
    + left. exists workflow, (Client.FailedToSubmit status_code text).
      split; [done|]. split; [|intros ? ?; congruence].
      by apply generate_image_rejected with (result := Some prompt_id).
  - left. destruct (decide (status_code = 200%Z)) as [->|Hstatus].
    + exists workflow, Client.ErrorGenerating. split; [done|]. split; [|intros ? ?; congruence].
      unfold Client.generate_image, Client.try_generate_image. rewrite Hfile.
      destruct (Client.inject prompt_text workflow) as [workflow' updated].
      cbn [fst snd] in *. rewrite Hpost. rewrite decide_True by done.
      by rewrite <- app_assoc.
    + exists workflow, (Client.FailedToSubmit status_code text).
      split; [done|]. split; [|intros ? ?; congruence].
      by apply generate_image_rejected with (result := None).
Qed.

Lemma prints_not_get (tr : list Client.event) p :
  Forall (fun e => exists m, e = Client.Prints m) tr -> Client.Gets p ∉ tr.
Proof.
  rewrite Forall_forall. intros H Hin. by destruct (H _ Hin) as [m Hm].
Qed.

(** Whatever the server answers, one call of [generate_image] makes at most
    60 poll requests, posts at most one submission (it never submits again)
    and copies at most one file. *)
Theorem generate_image_is_bounded (w : Client.world)
    (prompt_text output_path : string) :
  let tr := (Client.generate_image w prompt_text output_path).2 in
  length (Client.polls tr) <= Client.max_attempts
  /\ length (Trace.posts tr) <= 1
  /\ length (Trace.copies tr) <= 1.
Proof.
  cbv zeta.
  destruct (generate_image_shape w prompt_text output_path)
    as [[-> _]|[(workflow & last & _ & -> & _)
               |(workflow & text & prompt_id & _ & _ & ->)]].
  - cbn. split; [apply Nat.le_0_l | lia].
  - cbn [snd]. rewrite polls_app, posts_app, copies_app.
    rewrite polls_inject, posts_inject, copies_inject.
    cbn. split; [apply Nat.le_0_l | lia].
  - pose proof (poll_facts w prompt_id output_path Client.max_attempts 0) as Hpoll.
    cbv zeta in Hpoll.
    destruct (Client.poll w prompt_id output_path 0 Client.max_attempts) as [e tr].
    cbn [fst snd] in *. destruct Hpoll as (Hpolls & Hposts & Hcopies & _ & _).
    assert (Hbefore : forall rest,
      length (Client.polls
                ((Client.inject prompt_text workflow).2
                 ++ [Client.Prints Client.Submitting;
                     Client.Posts (Client.inject prompt_text workflow).1;
                     Client.Prints (Client.Submitted prompt_id)] ++ rest))
      = length (Client.polls rest)
      /\ length (Trace.posts
                   ((Client.inject prompt_text workflow).2
                    ++ [Client.Prints Client.Submitting;
                        Client.Posts (Client.inject prompt_text workflow).1;
                        Client.Prints (Client.Submitted prompt_id)] ++ rest))
         = S (length (Trace.posts rest))
      /\ length (Trace.copies
                   ((Client.inject prompt_text workflow).2
                    ++ [Client.Prints Client.Submitting;
                        Client.Posts (Client.inject prompt_text workflow).1;
                        Client.Prints (Client.Submitted prompt_id)] ++ rest))
         = length (Trace.copies rest)).
    { intros rest. rewrite !polls_app, !posts_app, !copies_app.
      rewrite polls_inject, posts_inject, copies_inject. done. }
    destruct e as [b|]; cbn [snd]; rewrite <- app_assoc.
    + destruct (Hbefore tr) as (-> & -> & ->). rewrite Hposts. cbn. lia.
    + destruct (Hbefore (tr ++ [Client.Prints Client.ErrorGenerating]))
        as (-> & -> & ->).
      rewrite polls_app, posts_app, copies_app, Hposts, !length_app. cbn. lia.
Qed.

(** A poll request is made only after a submission that was answered with
    status 200 and a JSON body, and it asks for the prompt id of that
    answer. *)
Theorem polls_follow_accepted_submission (w : Client.world)
    (prompt_text output_path : string) (prompt_id : option string) :
  Client.Gets prompt_id ∈ (Client.generate_image w prompt_text output_path).2 ->
  exists workflow text,
    Client.workflow_file w = Some workflow
    /\ Client.post w (Client.inject prompt_text workflow).1
       = Client.PostResponse 200 text (Some prompt_id).
Proof.
  destruct (generate_image_shape w prompt_text output_path)
    as [[-> _]|[(workflow & last & _ & -> & _)
               |(workflow & text & pid & Hfile & Hpost & ->)]].
  - cbn [snd]. intros [[=]|[]%elem_of_nil]%elem_of_cons.
  - cbn [snd]. intros [Hin|Hin]%elem_of_app.
    + by apply prints_not_get in Hin; [|apply inject_events].
    + repeat (apply elem_of_cons in Hin as [[=]|Hin]). by apply elem_of_nil in Hin.
  - pose proof (poll_facts w pid output_path Client.max_attempts 0) as Hpoll.
    cbv zeta in Hpoll.
    destruct (Client.poll w pid output_path 0 Client.max_attempts) as [e tr].
    cbn [fst snd] in *. destruct Hpoll as (_ & _ & _ & Hgets & _).
    assert (Hbefore : forall rest,
      Client.Gets prompt_id
      ∈ ((Client.inject prompt_text workflow).2
         ++ [Client.Prints Client.Submitting;
             Client.Posts (Client.inject prompt_text workflow).1;
             Client.Prints (Client.Submitted pid)]) ++ rest ->
      Client.Gets prompt_id ∈ rest).
    { intros rest [[Hin|Hin]%elem_of_app|Hin]%elem_of_app; [| |done].
      - by apply prints_not_get in Hin; [|apply inject_events].
      - repeat (apply elem_of_cons in Hin as [[=]|Hin]). by apply elem_of_nil in Hin. }
    intros Hin. exists workflow, text. split; [done|].
    assert (Hp : prompt_id = pid); [|by rewrite Hp].
    destruct e as [b|]; cbn [snd] in Hin; apply Hbefore in Hin.
    + by apply Hgets.
    + apply elem_of_app in Hin as [Hin|Hin]; [by apply Hgets|].
      apply list_elem_of_singleton in Hin. discriminate Hin.
Qed.

(** On a server whose first poll fails. *)
Lemma polls_follow_accepted_submission_witness :
  exists workflow text,
    Client.workflow_file (Fixture.answering 0 Client.GetRaises Fixture.nothing)
    = Some workflow
    /\ Client.post (Fixture.answering 0 Client.GetRaises Fixture.nothing)
         (Client.inject "a dish" workflow).1
       = Client.PostResponse 200 text (Some (Some "job-1")).
Proof.
  apply (polls_follow_accepted_submission
           (Fixture.answering 0 Client.GetRaises Fixture.nothing)
           "a dish" "scene.png" (Some "job-1")).
  vm_compute. do 5 constructor.
Defined.

(** [generate_image] returns [True] only after it has copied one file that
    exists to the output path and printed that it is generated: these are
    the last two events of the run and no other copy precedes them. *)
Theorem success_means_one_copy (w : Client.world)
    (prompt_text output_path : string) :
  (Client.generate_image w prompt_text output_path).1 = true ->
  exists tr source_path,
    (Client.generate_image w prompt_text output_path).2
    = tr ++ [Client.Copies source_path output_path;
             Client.Prints (Client.Generated output_path)]
    /\ Trace.copies tr = []
    /\ Client.path_exists w source_path = true
    /\ Client.copy_succeeds w source_path output_path = true.
Proof.
  destruct (generate_image_shape w prompt_text output_path)
    as [[-> _]|[(workflow & last & _ & -> & _)
               |(workflow & text & pid & Hfile & Hpost & ->)]]; [done | done |].
  pose proof (poll_facts w pid output_path Client.max_attempts 0) as Hpoll.
  cbv zeta in Hpoll.
  destruct (Client.poll w pid output_path 0 Client.max_attempts) as [e tr].
  cbn [fst snd] in *. destruct Hpoll as (_ & _ & _ & _ & Htrue).
  destruct e as [b|]; cbn [fst snd]; [|done].
  intros ->. destruct (Htrue eq_refl) as (tr0 & source_path & -> & Hnone & ? & ?).
  exists (((Client.inject prompt_text workflow).2
           ++ [Client.Prints Client.Submitting;
               Client.Posts (Client.inject prompt_text workflow).1;
               Client.Prints (Client.Submitted pid)]) ++ tr0), source_path.
  split; [by rewrite app_assoc|]. split; [|done].
  rewrite !copies_app, copies_inject, Hnone. done.
Qed.

(** On a server whose first poll reports two images of which the second
    exists. *)
Lemma success_means_one_copy_witness :
  exists tr,
    (Client.generate_image (Fixture.answering 0 Fixture.two_images Fixture.only_b)
       "a dish" "scene.png").2
    = tr ++ [Client.Copies (Client.output_dir +:+ "b.png") "scene.png";
             Client.Prints (Client.Generated "scene.png")].
Proof.
  destruct (success_means_one_copy
              (Fixture.answering 0 Fixture.two_images Fixture.only_b)
              "a dish" "scene.png")
    as (tr & source_path & Htr & _ & _ & _).
  - vm_compute. reflexivity.
  - exists tr. rewrite Htr. do 3 f_equal.
    assert (Hlast : List.last
              (Client.generate_image
                 (Fixture.answering 0 Fixture.two_images Fixture.only_b)
                 "a dish" "scene.png").2 (Client.Sleeps 0)
            = Client.Prints (Client.Generated "scene.png")) by (vm_compute; reflexivity).
    assert (Hcopy : List.last
              (List.removelast
                 (Client.generate_image
                    (Fixture.answering 0 Fixture.two_images Fixture.only_b)
                    "a dish" "scene.png").2) (Client.Sleeps 0)
            = Client.Copies (Client.output_dir +:+ "b.png") "scene.png")
      by (vm_compute; reflexivity).
    rewrite Htr in Hcopy.
    change [?a; ?b] with ([a] ++ [b]) in Hcopy.
    rewrite app_assoc, List.removelast_last, List.last_last in Hcopy.
    by injection Hcopy.
Defined.

(** ** The client: the first poll that is not pending decides *)

Lemma poll_after_pending w prompt_id output_path k i n :
  (forall j, i <= j < i + k ->
     Client.pending prompt_id (Client.get w j prompt_id) = true) ->
  Client.poll w prompt_id output_path i (k + n)
  = ((Client.poll w prompt_id output_path (i + k) n).1,
     Client.idle_polls prompt_id k
     ++ (Client.poll w prompt_id output_path (i + k) n).2).
Proof.
  revert i. induction k as [|k IH]; intros i Hpending.
  - rewrite Nat.add_0_r. cbn [Nat.add Client.idle_polls app].
    by destruct (Client.poll w prompt_id output_path i n).
  - cbn [Nat.add]. rewrite poll_step.
    rewrite (IH (S i)) by (intros j Hj; apply Hpending; lia).
    rewrite Nat.add_succ_comm.
    specialize (Hpending i ltac:(lia)). unfold Client.pending in Hpending.
    destruct (Client.get w i prompt_id) as [|status_code body]; [done|].
    destruct (decide (status_code = 200%Z)); [|done].
    destruct body as [history|]; [|done].
    by destruct (Client.reported_outputs prompt_id history).
Qed.

Lemma find_none_forall {A : Type} (f : A -> bool) (xs : list A) :
  Forall (fun x => f x = false) xs -> List.find f xs = None.
Proof.
  induction 1 as [|x xs Hx _ IH]; cbn [List.find]; [done|]. by rewrite Hx.
Qed.

(** A run whose submission is accepted and whose first [i] polls find the
    job pending, by what attempt [i] gives. *)
Lemma generate_image_after_pending (w : Client.world)
    (prompt_text output_path : string) (workflow : Editor.workflow)
    (text : string) (prompt_id : option string) (i : nat)
    (e : Client.ending) (tr : list Client.event) :
  Client.workflow_file w = Some workflow ->
  Client.post w (Client.inject prompt_text workflow).1
  = Client.PostResponse 200 text (Some prompt_id) ->
  i < Client.max_attempts ->
  (forall j, j < i -> Client.pending prompt_id (Client.get w j prompt_id) = true) ->
  Client.poll w prompt_id output_path i (S (Client.max_attempts - S i)) = (e, tr) ->
  let before := (Client.inject prompt_text workflow).2
                ++ [Client.Prints Client.Submitting;
                    Client.Posts (Client.inject prompt_text workflow).1;
                    Client.Prints (Client.Submitted prompt_id)]
                ++ Client.idle_polls prompt_id i in
  Client.generate_image w prompt_text output_path
  = match e with
    | Client.Returns b => (b, before ++ tr)
    | Client.Raises => (false, before ++ tr ++ [Client.Prints Client.ErrorGenerating])
    end.
Proof.
  intros Hfile Hpost Hi Hpending Hstep. cbv zeta.
  assert (Hpoll : Client.poll w prompt_id output_path 0 Client.max_attempts
                  = (e, Client.idle_polls prompt_id i ++ tr)).
  { pose proof (poll_after_pending w prompt_id output_path i 0
                  (S (Client.max_attempts - S i))) as H.
    cbn [Nat.add] in H. rewrite Hstep in H. cbn [fst snd] in H.
    rewrite <- H; [f_equal; lia | intros j Hj; apply Hpending; lia]. }
  rewrite (generate_image_accepted _ _ _ _ _ _ Hfile Hpost).
  rewrite Hpoll. cbn [fst snd].
  destruct e; rewrite <- !app_assoc; reflexivity.
Qed.

(** When the first poll that is not pending reports outputs but none of the
    files they name exists in the output directory of ComfyUI, polling stops
    at once: [generate_image] prints that the generation is complete, then
    the timeout line, and returns [False], although the budget of 60
    attempts is not used up. *)
Theorem outputs_without_file_end_as_timeout (w : Client.world)
    (prompt_text output_path : string) (workflow : Editor.workflow)
    (text : string) (prompt_id : option string) (i : nat)
    (history : gmap string Client.history_entry) :
  Client.workflow_file w = Some workflow ->
  Client.post w (Client.inject prompt_text workflow).1
  = Client.PostResponse 200 text (Some prompt_id) ->
  i < Client.max_attempts ->
  (forall j, j < i -> Client.pending prompt_id (Client.get w j prompt_id) = true) ->
  Client.get w i prompt_id = Client.GetResponse 200 (Some history) ->
  Client.reported_outputs prompt_id history <> [] ->
  Forall (fun path => Client.path_exists w path = false)
         (Trace.candidates (Client.reported_outputs prompt_id history)) ->
  Client.generate_image w prompt_text output_path
  = (false,
     (Client.inject prompt_text workflow).2
     ++ [Client.Prints Client.Submitting;
         Client.Posts (Client.inject prompt_text workflow).1;
         Client.Prints (Client.Submitted prompt_id)]
     ++ Client.idle_polls prompt_id i
     ++ [Client.Gets prompt_id; Client.Prints Client.Complete;
         Client.Prints Client.TimedOutWaiting]).
Proof.
  intros Hfile Hpost Hi Hpending Hget Houts Hmissing.
  rewrite (generate_image_after_pending w prompt_text output_path workflow text
             prompt_id i (Client.Returns false)
             [Client.Gets prompt_id; Client.Prints Client.Complete;
              Client.Prints Client.TimedOutWaiting] Hfile Hpost Hi Hpending).
  - by rewrite <- !app_assoc.
  - rewrite poll_step, Hget. rewrite decide_True by done.
    destruct (Client.reported_outputs prompt_id history) as [|out outs]; [done|].
    by rewrite first_image_find, (find_none_forall _ _ Hmissing).
Qed.

(** Two quiet polls, then a history naming two images, neither of which
    exists. *)
Lemma outputs_without_file_end_as_timeout_witness :
  Client.generate_image (Fixture.answering 2 Fixture.two_images Fixture.nothing)
    "a dish" "scene.png"
  = (false,
     [Client.Prints (Client.Updated "clip text encode (positive)");
      Client.Prints Client.Submitting;
      Client.Posts (Client.inject "a dish" Sample.workflow_file).1;
      Client.Prints (Client.Submitted (Some "job-1"));
      Client.Gets (Some "job-1"); Client.Sleeps 1;
      Client.Gets (Some "job-1"); Client.Sleeps 1;
      Client.Gets (Some "job-1"); Client.Prints Client.Complete;
      Client.Prints Client.TimedOutWaiting]).
Proof.
  apply (outputs_without_file_end_as_timeout
           (Fixture.answering 2 Fixture.two_images Fixture.nothing)
           "a dish" "scene.png" Sample.workflow_file "{}" (Some "job-1") 2
           Fixture.saved).
  - reflexivity.
  - reflexivity.
  - unfold Client.max_attempts. lia.
  - intros j Hj. destruct j as [|[|j]]; [reflexivity | reflexivity | lia].
  - reflexivity.
  - vm_compute. discriminate.
  - vm_compute. repeat constructor.
Defined.

(** When the first poll that is not pending reports outputs, the file that
    is copied to the output path is the first one that exists, in the order
    of the outputs and of their images; [generate_image] then returns [True]
    and polls no more. *)
Theorem first_existing_image_is_copied (w : Client.world)
    (prompt_text output_path : string) (workflow : Editor.workflow)
    (text : string) (prompt_id : option string) (i : nat)
    (history : gmap string Client.history_entry) (source_path : string) :
  Client.workflow_file w = Some workflow ->
  Client.post w (Client.inject prompt_text workflow).1
  = Client.PostResponse 200 text (Some prompt_id) ->
  i < Client.max_attempts ->
  (forall j, j < i -> Client.pending prompt_id (Client.get w j prompt_id) = true) ->
  Client.get w i prompt_id = Client.GetResponse 200 (Some history) ->
  List.find (Client.path_exists w)
            (Trace.candidates (Client.reported_outputs prompt_id history))
  = Some source_path ->
  Client.copy_succeeds w source_path output_path = true ->
  Client.generate_image w prompt_text output_path
  = (true,
     (Client.inject prompt_text workflow).2
     ++ [Client.Prints Client.Submitting;
         Client.Posts (Client.inject prompt_text workflow).1;
         Client.Prints (Client.Submitted prompt_id)]
     ++ Client.idle_polls prompt_id i
     ++ [Client.Gets prompt_id; Client.Prints Client.Complete;
         Client.Copies source_path output_path;
         Client.Prints (Client.Generated output_path)]).
Proof.
  intros Hfile Hpost Hi Hpending Hget Hfind Hcopy.
  rewrite (generate_image_after_pending w prompt_text output_path workflow text
             prompt_id i (Client.Returns true)
             [Client.Gets prompt_id; Client.Prints Client.Complete;
              Client.Copies source_path output_path;
              Client.Prints (Client.Generated output_path)]
             Hfile Hpost Hi Hpending).
  - by rewrite <- !app_assoc.
  - rewrite poll_step, Hget. rewrite decide_True by done.
    destruct (Client.reported_outputs prompt_id history) as [|out outs];
      [discriminate Hfind|].
    by rewrite first_image_find, Hfind, Hcopy.
Qed.

(** Two quiet polls, then a history naming [a.png] and [b.png], of which
    only [b.png] exists: [b.png] is copied. *)
Lemma first_existing_image_is_copied_witness :
  Client.generate_image (Fixture.answering 2 Fixture.two_images Fixture.only_b)
    "a dish" "scene.png"
  = (true,
     [Client.Prints (Client.Updated "clip text encode (positive)");
      Client.Prints Client.Submitting;
      Client.Posts (Client.inject "a dish" Sample.workflow_file).1;
      Client.Prints (Client.Submitted (Some "job-1"));
      Client.Gets (Some "job-1"); Client.Sleeps 1;
      Client.Gets (Some "job-1"); Client.Sleeps 1;
      Client.Gets (Some "job-1"); Client.Prints Client.Complete;
      Client.Copies (Client.output_dir +:+ "b.png") "scene.png";
      Client.Prints (Client.Generated "scene.png")]).
Proof.
  apply (first_existing_image_is_copied
           (Fixture.answering 2 Fixture.two_images Fixture.only_b)
           "a dish" "scene.png" Sample.workflow_file "{}" (Some "job-1") 2
           Fixture.saved).
  - reflexivity.
  - reflexivity.
  - unfold Client.max_attempts. lia.
  - intros j Hj. destruct j as [|[|j]]; [reflexivity | reflexivity | lia].
  - reflexivity.
  - vm_compute. reflexivity.
  - reflexivity.
Defined.

(** A poll that fails (the request raises, or a 200 answer is not JSON) ends
    the job at once: [generate_image] prints the error line and returns
    [False] without polling again. *)
Theorem failed_poll_ends_job (w : Client.world)
    (prompt_text output_path : string) (workflow : Editor.workflow)
    (text : string) (prompt_id : option string) (i : nat) :
  Client.workflow_file w = Some workflow ->
  Client.post w (Client.inject prompt_text workflow).1
  = Client.PostResponse 200 text (Some prompt_id) ->
  i < Client.max_attempts ->
  (forall j, j < i -> Client.pending prompt_id (Client.get w j prompt_id) = true) ->
  Client.get w i prompt_id = Client.GetRaises
  \/ Client.get w i prompt_id = Client.GetResponse 200 None ->
  Client.generate_image w prompt_text output_path
  = (false,
     (Client.inject prompt_text workflow).2
     ++ [Client.Prints Client.Submitting;
         Client.Posts (Client.inject prompt_text workflow).1;
         Client.Prints (Client.Submitted prompt_id)]
     ++ Client.idle_polls prompt_id i
     ++ [Client.Gets prompt_id; Client.Prints Client.ErrorGenerating]).
Proof.
  intros Hfile Hpost Hi Hpending Hget.
  rewrite (generate_image_after_pending w prompt_text output_path workflow text
             prompt_id i Client.Raises [Client.Gets prompt_id]
             Hfile Hpost Hi Hpending).
  - by rewrite <- !app_assoc.
  - rewrite poll_step. destruct Hget as [-> | ->]; [done|].
    by rewrite decide_True.
Qed.

(** One quiet poll, then a request that raises. *)
Lemma failed_poll_ends_job_witness :
  Client.generate_image (Fixture.answering 1 Client.GetRaises Fixture.nothing)
    "a dish" "scene.png"
  = (false,
     [Client.Prints (Client.Updated "clip text encode (positive)");
      Client.Prints Client.Submitting;
      Client.Posts (Client.inject "a dish" Sample.workflow_file).1;
      Client.Prints (Client.Submitted (Some "job-1"));
      Client.Gets (Some "job-1"); Client.Sleeps 1;
      Client.Gets (Some "job-1"); Client.Prints Client.ErrorGenerating]).
Proof.
  apply (failed_poll_ends_job
           (Fixture.answering 1 Client.GetRaises Fixture.nothing)
           "a dish" "scene.png" Sample.workflow_file "{}" (Some "job-1") 1).
  - reflexivity.
  - reflexivity.
  - unfold Client.max_attempts. lia.
  - intros j Hj. destruct j as [|j]; [reflexivity | lia].
  - left. reflexivity.
Defined.

(** ** The prompt parser: edge cases *)

Lemma strip_prefix_none_iff p s :
  Parser.strip_prefix p s = None <-> String.prefix p s = false.
Proof.
  revert s. induction p as [|a p IH]; intros s; cbn [Parser.strip_prefix].
  - by destruct s.
  - destruct s as [|b s]; cbn [String.prefix]; [done|].
    destruct (decide (a = b)) as [->|Hne].
    + destruct (ascii_dec b b); [apply IH | done].
    + destruct (ascii_dec a b); [done|]. done.
Qed.

Lemma match_scene_needs_heading s :
  String.prefix "## Scene " s = false -> Parser.match_scene s = None.
Proof.
  intros H%strip_prefix_none_iff. unfold Parser.match_scene. by rewrite H.
Qed.

Lemma findall_scene_without_heading skip s :
  Py.contains "## Scene " s = false ->
  Parser.findall_from Parser.match_scene skip s = [].
Proof.
  revert skip. induction s as [|c s IH]; intros skip; [done|].
  cbn [Py.contains Parser.findall_from].
  intros [Hhere Hlater]%orb_false_iff.
  destruct skip as [|k]; [|by apply IH].
  rewrite (match_scene_needs_heading _ Hhere). by apply IH.
Qed.

(** A document in which the text "## Scene " does not occur gives no prompt
    at all: the parser returns the empty list, it does not fail. *)
Theorem parse_without_scene_heading (content : string) :
  Py.contains "## Scene " content = false ->
  Parser.parse_broll_prompts content = [].
Proof.
  intros H. unfold Parser.parse_broll_prompts, Parser.findall.
  by rewrite findall_scene_without_heading.
Qed.

(** A document with an episode heading and a fenced block, but no scene
    heading. *)
Lemma parse_without_scene_heading_witness :
  Parser.parse_broll_prompts
    (Parser.unlines ["# Episode 1 B-roll Prompts"; "```"; "a prompt"; "```"])
  = [].
Proof.
  apply parse_without_scene_heading. vm_compute. reflexivity.
Defined.








Lemma int_from_nonneg acc s : (0 <= acc)%Z -> (0 <= Parser.int_from acc s)%Z.
Proof.
  revert acc. induction s as [|c s IH]; intros acc Hacc; cbn [Parser.int_from]; [done|].
  apply IH. unfold Parser.digit_value. lia.
Qed.

(** ** The prompt parser on documents in the expected format *)

Lemma append_cons c s1 s2 : String c s1 +:+ s2 = String c (s1 +:+ s2).
Proof. reflexivity. Qed.

Lemma append_nil s : EmptyString +:+ s = s.
Proof. reflexivity. Qed.


Lemma length_append s1 s2 :
  String.length (s1 +:+ s2) = String.length s1 + String.length s2.
Proof. induction s1 as [|c s1 IH]; [done|]. rewrite append_cons. cbn. by rewrite IH. Qed.

































(** ** The [main] functions *)

Lemma startup_cases (sys : Driver.system) :
  (exists tr status,
     Driver.startup sys = inl (Driver.Exits status, tr)
     /\ status = 1%Z /\ Driver.calls tr = [])
  \/ (exists tr, Driver.startup sys = inl (Driver.RaisesOSError, tr)
                 /\ Driver.calls tr = [])
  \/ (exists program story_dir rest content,
        Driver.argv sys = program :: story_dir :: rest
        /\ Client.path_exists (Driver.server sys)
             (Driver.joinpath sys story_dir "broll-prompts.md") = true
        /\ Driver.make_dir sys (Driver.joinpath sys story_dir "images") = true
        /\ Client.path_exists (Driver.server sys) Driver.workflow_path = true
        /\ Driver.read_text sys (Driver.joinpath sys story_dir "broll-prompts.md")
           = Some content
        /\ Driver.startup sys
           = inr (Driver.joinpath sys story_dir "images",
                  Parser.parse_broll_prompts content,
                  [Driver.MakesDir (Driver.joinpath sys story_dir "images");
                   Driver.Says Driver.Parsing;
                   Driver.Says (Driver.FoundPrompts
                                  (length (Parser.parse_broll_prompts content)))])).
Proof.
  unfold Driver.startup.
  destruct (Driver.argv sys) as [|program [|story_dir rest]] eqn:Hargv.
  - left. by eexists _, _.
  - left. by eexists _, _.
  - destruct (Client.path_exists (Driver.server sys)
                (Driver.joinpath sys story_dir "broll-prompts.md")) eqn:Hbroll;
      cbn [negb]; [|left; by eexists _, _].
    destruct (Driver.make_dir sys (Driver.joinpath sys story_dir "images")) eqn:Hdir;
      cbn [negb]; [|right; left; by eexists].
    destruct (Client.path_exists (Driver.server sys) Driver.workflow_path) eqn:Hwf;
      cbn [negb]; [|left; by eexists _, _].
    destruct (Driver.read_text sys (Driver.joinpath sys story_dir "broll-prompts.md"))
      as [content|] eqn:Hread; [|right; left; by eexists].
    right. right. by exists program, story_dir, rest, content.
Qed.

Lemma calls_app tr1 tr2 :
  Driver.calls (tr1 ++ tr2) = Driver.calls tr1 ++ Driver.calls tr2.
Proof. apply List.filter_app. Qed.

Lemma batch_calls sys images_dir total i generated prompts :
  Driver.calls (Driver.batch sys images_dir total i generated prompts).2
  = (fun r => Driver.Calls (Parser.prompt r)
                (Driver.joinpath sys images_dir (Driver.output_name r))
                (Driver.generate_local sys (Parser.prompt r)
                   (Driver.joinpath sys images_dir (Driver.output_name r))))
    <$> prompts.
Proof.
  revert i generated. induction prompts as [|r prompts IH]; intros i generated; [done|].
  cbn [Driver.batch].
  specialize (IH (S i)
    (if Driver.generate_local sys (Parser.prompt r)
          (Driver.joinpath sys images_dir (Driver.output_name r))
     then S generated else generated)).
  destruct (Driver.batch _ _ _ _ _ prompts) as [count tr].
  cbn [snd] in *. cbn [Driver.calls List.filter Driver.is_call fmap list_fmap].
  f_equal. exact IH.
Qed.

Lemma batch_count sys images_dir total i generated prompts :
  (Driver.batch sys images_dir total i generated prompts).1
  = generated
    + length (List.filter
                (fun r => Driver.generate_local sys (Parser.prompt r)
                            (Driver.joinpath sys images_dir (Driver.output_name r)))
                prompts).
Proof.
  revert i generated. induction prompts as [|r prompts IH]; intros i generated.
  - cbn. lia.
  - cbn [Driver.batch List.filter].
    specialize (IH (S i)
      (if Driver.generate_local sys (Parser.prompt r)
            (Driver.joinpath sys images_dir (Driver.output_name r))
       then S generated else generated)).
    destruct (Driver.batch _ _ _ _ _ prompts) as [count tr].
    cbn [fst] in *. rewrite IH.
    destruct (Driver.generate_local sys _ _); cbn [length]; lia.
Qed.

(** Neither [main] calls [generate_image] unless the command line names a
    story directory, the prompts file and the workflow file exist, the images
    directory could be made and the prompts file could be read; and when
    either ends through [sys.exit], the status is 1 and no call was made. *)
Theorem generation_needs_all_inputs (sys : Driver.system) :
  let needs :=
    exists program story_dir rest,
      Driver.argv sys = program :: story_dir :: rest
      /\ Client.path_exists (Driver.server sys)
           (Driver.joinpath sys story_dir "broll-prompts.md") = true
      /\ Driver.make_dir sys (Driver.joinpath sys story_dir "images") = true
      /\ Client.path_exists (Driver.server sys) Driver.workflow_path = true
      /\ is_Some (Driver.read_text sys
                    (Driver.joinpath sys story_dir "broll-prompts.md")) in
  (Driver.calls (Driver.main_working sys).2 <> [] -> needs)
  /\ (Driver.calls (Driver.main_local sys).2 <> [] -> needs)
  /\ (forall status,
        (Driver.main_working sys).1 = Driver.Exits status
        \/ (Driver.main_local sys).1 = Driver.Exits status ->
        status = 1%Z
        /\ Driver.calls (Driver.main_working sys).2 = []
        /\ Driver.calls (Driver.main_local sys).2 = []).
Proof.
  cbv zeta. unfold Driver.main_working, Driver.main_local.
  destruct (startup_cases sys)
    as [(tr & status & -> & -> & Hcalls)
       |[(tr & -> & Hcalls)
        |(program & story_dir & rest & content & Hargv & ? & ? & ? & Hread & ->)]].
  - cbn [fst snd]. rewrite Hcalls. split; [done|]. split; [done|].
    intros status [[= <-]|[= <-]]; done.
  - cbn [fst snd]. rewrite Hcalls. split; [done|]. split; [done|].
    intros status [[=]|[=]].
  - split; [|split].
    + intros _. exists program, story_dir, rest. by rewrite Hread.
    + intros _. exists program, story_dir, rest. by rewrite Hread.
    + intros status [Hexit|Hexit].
      * by destruct (Parser.parse_broll_prompts content).
      * by destruct (Driver.batch _ _ _ _ _ _).
Qed.

(** With all inputs in place and a prompts file without any scene heading,
    [main] of generate-images-working.py ends in an [IndexError] that nothing
    catches ([prompts[0]] on the empty list), where [main] of
    generate-images-local.py runs to its end and reports 0 of 0 images. *)
Theorem empty_document_breaks_working_main (sys : Driver.system)
    (program story_dir : string) (rest : list string) (content : string) :
  Driver.argv sys = program :: story_dir :: rest ->
  Client.path_exists (Driver.server sys)
    (Driver.joinpath sys story_dir "broll-prompts.md") = true ->
  Driver.make_dir sys (Driver.joinpath sys story_dir "images") = true ->
  Client.path_exists (Driver.server sys) Driver.workflow_path = true ->
  Driver.read_text sys (Driver.joinpath sys story_dir "broll-prompts.md")
  = Some content ->
  Py.contains "## Scene " content = false ->
  Driver.main_working sys
  = (Driver.RaisesIndexError,
     [Driver.MakesDir (Driver.joinpath sys story_dir "images");
      Driver.Says Driver.Parsing; Driver.Says (Driver.FoundPrompts 0)])
  /\ Driver.main_local sys
     = (Driver.Returns,
        [Driver.MakesDir (Driver.joinpath sys story_dir "images");
         Driver.Says Driver.Parsing; Driver.Says (Driver.FoundPrompts 0);
         Driver.Says (Driver.CompleteBatch 0 0)]).
Proof.
  intros Hargv Hbroll Hdir Hwf Hread Hnone.
  assert (Hparse : Parser.parse_broll_prompts content = []).
  { unfold Parser.parse_broll_prompts, Parser.findall.
    by rewrite findall_scene_without_heading. }
  unfold Driver.main_working, Driver.main_local, Driver.startup.
  rewrite Hargv, Hbroll, Hdir, Hwf, Hread, Hparse. done.
Qed.

(** A prompts file that holds a title only. *)
Lemma empty_document_breaks_working_main_witness :
  (Driver.main_working
     (Fixture.process ["main"; "story"] Fixture.everything
        "# Episode 1 B-roll Prompts" Fixture.everything)).1
  = Driver.RaisesIndexError
  /\ (Driver.main_local
        (Fixture.process ["main"; "story"] Fixture.everything
           "# Episode 1 B-roll Prompts" Fixture.everything)).1
     = Driver.Returns.
Proof.
  destruct (empty_document_breaks_working_main
              (Fixture.process ["main"; "story"] Fixture.everything
                 "# Episode 1 B-roll Prompts" Fixture.everything)
              "main" "story" [] "# Episode 1 B-roll Prompts") as [Hw Hl];
    try reflexivity.
  split; [by rewrite Hw | by rewrite Hl].
Defined.

(** [main] of generate-images-working.py calls [generate_image] at most
    once, whatever the number of prompts; when there are prompts, the call is
    for the first one, with the output file named after its episode and
    scene. *)
Theorem working_main_generates_first_prompt_only (sys : Driver.system) :
  length (Driver.calls (Driver.main_working sys).2) <= 1
  /\ forall images_dir r prompts before,
       Driver.startup sys = inr (images_dir, r :: prompts, before) ->
       Driver.calls (Driver.main_working sys).2
       = [Driver.Calls (Parser.prompt r)
            (Driver.joinpath sys images_dir (Driver.output_name r))
            (Client.generate_image (Driver.server sys) (Parser.prompt r)
               (Driver.joinpath sys images_dir (Driver.output_name r))).1].
Proof.
  unfold Driver.main_working.
  destruct (startup_cases sys)
    as [(tr & status & -> & -> & Hcalls)
       |[(tr & -> & Hcalls)
        |(program & story_dir & rest & content & _ & _ & _ & _ & _ & ->)]].
  - cbn [snd]. rewrite Hcalls. split; [cbn; lia | done].
  - cbn [snd]. rewrite Hcalls. split; [cbn; lia | done].
  - destruct (Parser.parse_broll_prompts content) as [|r prompts].
    + split; [cbn; lia | done].
    + split; [cbn; lia|]. by intros images_dir r' prompts' before [= <- <- <- <-].
Qed.

(** [main] of generate-images-local.py goes through all the prompts, in
    order, one call each, whether the calls succeed or not; the number it
    reports as generated is the number of calls that returned [True]. *)
Theorem local_main_attempts_every_prompt (sys : Driver.system)
    (images_dir : string) (prompts : list Parser.prompt_record)
    (before : list Driver.event) :
  Driver.startup sys = inr (images_dir, prompts, before) ->
  let attempt r :=
    Driver.generate_local sys (Parser.prompt r)
      (Driver.joinpath sys images_dir (Driver.output_name r)) in
  exists tr,
    Driver.main_local sys
    = (Driver.Returns,
       before ++ tr
       ++ [Driver.Says (Driver.CompleteBatch
                          (length (List.filter attempt prompts))
                          (length prompts))])
    /\ Driver.calls tr
       = (fun r => Driver.Calls (Parser.prompt r)
                     (Driver.joinpath sys images_dir (Driver.output_name r))
                     (attempt r)) <$> prompts
    /\ length (List.filter attempt prompts) <= length prompts.
Proof.
  intros Hstart. cbv zeta. unfold Driver.main_local. rewrite Hstart.
  pose proof (batch_calls sys images_dir (length prompts) 0 0 prompts) as Hcalls.
  pose proof (batch_count sys images_dir (length prompts) 0 0 prompts) as Hcount.
  destruct (Driver.batch sys images_dir (length prompts) 0 0 prompts) as [count tr].
  cbn [fst snd] in *. exists tr. rewrite Hcount. cbn [Nat.add].
  split; [done|]. split; [done|]. apply List.filter_length_le.
Qed.

(** Three prompts of which the second fails. *)
Lemma local_main_attempts_every_prompt_witness :
  exists tr,
    Driver.main_local
      (Fixture.process ["main"; "story"] Fixture.everything
         (Markdown.document "3"
            [{| Markdown.number_text := "1"; Markdown.heading_rest := EmptyString;
                Markdown.body := "good" |};
             {| Markdown.number_text := "2"; Markdown.heading_rest := EmptyString;
                Markdown.body := "bad" |};
             {| Markdown.number_text := "3"; Markdown.heading_rest := EmptyString;
                Markdown.body := "fine" |}])
         (fun prompt_text => negb (String.eqb prompt_text "bad")))
    = (Driver.Returns, tr)
    /\ List.last tr (Driver.Pauses 0) = Driver.Says (Driver.CompleteBatch 2 3)
    /\ length (Driver.calls tr) = 3.
Proof.
  set (sys := Fixture.process _ _ _ _).
  destruct (local_main_attempts_every_prompt sys "story/images"
              [{| Parser.episode := 3; Parser.scene := 1; Parser.prompt := "good" |};
               {| Parser.episode := 3; Parser.scene := 2; Parser.prompt := "bad" |};
               {| Parser.episode := 3; Parser.scene := 3; Parser.prompt := "fine" |}]
              [Driver.MakesDir "story/images"; Driver.Says Driver.Parsing;
               Driver.Says (Driver.FoundPrompts 3)])
    as (tr & Hmain & Hcalls & _).
  - vm_compute. reflexivity.
  - eexists. split; [exact Hmain|]. split.
    + rewrite !app_assoc. apply List.last_last.
    + rewrite !calls_app, Hcalls. reflexivity.
Defined.

Lemma append_cancel_r s1 s2 t : s1 +:+ t = s2 +:+ t -> s1 = s2.
Proof.
  revert s2. induction s1 as [|c s1 IH]; intros [|c2 s2] Heq.
  - done.
  - apply (f_equal String.length) in Heq.
    rewrite append_nil, append_cons in Heq. cbn [String.length] in Heq.
    rewrite length_append in Heq. lia.
  - apply (f_equal String.length) in Heq.
    rewrite append_nil, append_cons in Heq. cbn [String.length] in Heq.
    rewrite length_append in Heq. lia.
  - rewrite !append_cons in Heq. injection Heq as -> Heq. f_equal. by apply IH.
Qed.

(** The output file of a record is decided by its scene number alone: all
    the records of a document carry the same episode number, so two scenes
    with the same number are written to the same file, also when they stand
    under different episode headings, and the later image replaces the
    earlier one. *)
Theorem output_file_depends_on_scene_only (content : string)
    (r1 r2 : Parser.prompt_record) :
  r1 ∈ Parser.parse_broll_prompts content ->
  r2 ∈ Parser.parse_broll_prompts content ->
  Driver.output_name r1 = Driver.output_name r2 <-> Parser.scene r1 = Parser.scene r2.
Proof.
  intros H1%parse_episode_is_last_heading H2%parse_episode_is_last_heading.
  unfold Driver.output_name. rewrite H1, H2. split.
  - intros Heq. apply (inj (String.app _)) in Heq. apply (inj (String.app _)) in Heq.
    apply (inj (String.app _)) in Heq. by apply append_cancel_r, str_inj in Heq.
  - by intros ->.
Qed.

(** Scene 1 of episode 1 and scene 1 of episode 2 get the same file. *)
Lemma output_file_depends_on_scene_only_witness :
  let content := Parser.unlines
    ["# Episode 1 B-roll Prompts"; "## Scene 1"; "```"; "first"; "```";
     "# Episode 2 B-roll Prompts"; "## Scene 1"; "```"; "second"; "```"] in
  Parser.parse_broll_prompts content
  = [{| Parser.episode := 2; Parser.scene := 1; Parser.prompt := "first" |};
     {| Parser.episode := 2; Parser.scene := 1; Parser.prompt := "second" |}]
  /\ Driver.output_name
       {| Parser.episode := 2; Parser.scene := 1; Parser.prompt := "first" |}
     = Driver.output_name
         {| Parser.episode := 2; Parser.scene := 1; Parser.prompt := "second" |}.
Proof.
  cbv zeta. split; [vm_compute; reflexivity|].
  apply (output_file_depends_on_scene_only
           (Parser.unlines
              ["# Episode 1 B-roll Prompts"; "## Scene 1"; "```"; "first"; "```";
               "# Episode 2 B-roll Prompts"; "## Scene 1"; "```"; "second"; "```"])).
  - vm_compute. do 1 constructor.
  - vm_compute. do 2 constructor.
  - reflexivity.
Defined.
